(** * Voice-Emotion-Analysis-Dashboard: segmentation, rule-based
      classification and aggregation

    A shallow embedding of
      - [audio_processing/preprocess.py]  (class [AudioProcessor]),
      - [emotion_model/model.py]          (class [EmotionDetector]),
      - [app.py]                          ([detect_emotion_changes],
                                           [calculate_statistics],
                                           the body of [analyze_audio]),
    followed by the properties of the specification checked against it.

    Python [float] is IEEE-754 binary64 and is modelled by Rocq's primitive
    [float]; Python [int] is modelled by [Z]; a [dict] is an association list
    in insertion order; an exception is a [Raise] outcome; a [while] loop
    runs on fuel and reports [OutOfFuel] when the fuel is spent. *)

From Stdlib Require Import ZArith List String Bool Lia QArith Qabs.
From Stdlib Require Import Floats.
Import ListNotations.

Set Warnings "-inexact-float".

Local Open Scope Z_scope.

(** ** The Python runtime the three modules rely on *)
Module Py.

(** Exceptions raised by the modelled code paths. *)
Inductive exn : Type :=
| ZeroDivisionError
| ValueError
| OverflowError
| IndexError
| KeyError
| LoadFailed
| LibraryError.

(** Outcome of running a piece of Python: a value, an exception, or a loop
    still running when the fuel was spent. *)
Inductive result (A : Type) : Type :=
| Ok (a : A)
| Raise (e : exn)
| OutOfFuel.
Arguments Ok {A} a.
Arguments Raise {A} e.
Arguments OutOfFuel {A}.

(** Outcome of a call into a library: it returns or it raises. *)
Inductive outcome (A : Type) : Type :=
| Returns (a : A)
| Raises (e : exn).
Arguments Returns {A} a.
Arguments Raises {A} e.

Definition call {A} (o : outcome A) : result A :=
  match o with
  | Returns a => Ok a
  | Raises e => Raise e
  end.

Definition bind {A B} (r : result A) (k : A -> result B) : result B :=
  match r with
  | Ok a => k a
  | Raise e => Raise e
  | OutOfFuel => OutOfFuel
  end.

(** [try: body except: handler]; fuel exhaustion is not an exception. *)
Definition try_except {A} (body : result A) (handler : exn -> result A)
  : result A :=
  match body with
  | Raise e => handler e
  | r => r
  end.

Fixpoint mapM {A B} (f : A -> result B) (l : list A) : result (list B) :=
  match l with
  | [] => Ok []
  | x :: xs =>
      bind (f x) (fun y => bind (mapM f xs) (fun ys => Ok (y :: ys)))
  end.

(** *** Floats *)

(** An [int] as an (unnormalised) binary float with exponent 0. *)
Definition Z2SF (z : Z) : spec_float :=
  match z with
  | Z0 => S754_zero false
  | Zpos p => S754_finite false p 0
  | Zneg p => S754_finite true p 0
  end.

(** The integer [q >= 0] carrying the sign [s]; [-0] keeps its sign. *)
Definition Z2SF_signed (s : bool) (q : Z) : spec_float :=
  match q with
  | Zpos p => S754_finite s p 0
  | _ => S754_zero s
  end.

(** [float(z)]: the binary64 value nearest to [z], ties to even. *)
Definition float_of_Z (z : Z) : float :=
  SF2Prim (binary_normalize prec emax z 0 false).

(** The value of [a / b] on ints, [b <> 0]: the binary64 value nearest to
    the exact quotient.  CPython raises [OverflowError] where the quotient
    is beyond the binary64 range; that needs operands above [2^1023] and
    the operands here are sample indices of an array. *)
Definition truediv_float (a b : Z) : float :=
  SF2Prim (SFdiv prec emax (Z2SF a) (Z2SF b)).

(** [a / b] on ints. *)
Definition py_truediv (a b : Z) : result float :=
  if b =? 0 then Raise ZeroDivisionError else Ok (truediv_float a b).

(** [int(x)] on a float: truncation toward zero. *)
Definition py_int (x : float) : result Z :=
  match Prim2SF x with
  | S754_nan => Raise ValueError
  | S754_infinity _ => Raise OverflowError
  | S754_zero _ => Ok 0
  | S754_finite s m e =>
      let a := if 0 <=? e then Zpos m * 2 ^ e else Zpos m / 2 ^ (- e) in
      Ok (if s then - a else a)
  end.

(** Nearest integer to [num / den] ([den > 0], [num >= 0]), ties to even. *)
Definition div_half_even (num den : Z) : Z :=
  let q := num / den in
  let r := num mod den in
  match 2 * r ?= den with
  | Lt => q
  | Gt => q + 1
  | Eq => if Z.even q then q else q + 1
  end.

(** [round(x, ndigits)] on a float, [ndigits >= 0]: the exact binary value
    is rounded half-even to [ndigits] decimals, and the decimal obtained is
    converted back to the nearest binary64 value. *)
Definition py_round (x : float) (ndigits : Z) : float :=
  match Prim2SF x with
  | S754_finite s m e =>
      if 0 <=? e then x
      else
        let q := div_half_even (Zpos m * 10 ^ ndigits) (2 ^ (- e)) in
        SF2Prim (SFdiv prec emax (Z2SF_signed s q) (Z2SF (10 ^ ndigits)))
  | _ => x
  end.

(** The exact rational value of a finite float. *)
Definition float_to_Q (x : float) : option Q :=
  match Prim2SF x with
  | S754_finite s m e =>
      let n := if s then Zneg m else Zpos m in
      Some (if 0 <=? e then inject_Z (n * 2 ^ e)
            else Qmake n (Z.to_pos (2 ^ (- e))))
  | S754_zero _ => Some 0%Q
  | _ => None
  end.

(** The exact sum of finite floats. *)
Fixpoint exact_sum (l : list float) : option Q :=
  match l with
  | [] => Some 0%Q
  | x :: xs =>
      match float_to_Q x, exact_sum xs with
      | Some q, Some r => Some (q + r)%Q
      | _, _ => None
      end
  end.

Definition is_nan (x : float) : bool := negb (PrimFloat.eqb x x).

(** [float(z)] as CPython converts an int operand of a float operation. *)
Definition py_float_of_int (z : Z) : result float :=
  let f := float_of_Z z in
  if PrimFloat.is_infinity f then Raise OverflowError else Ok f.

(** *** Sequences *)

Definition len {A} (l : list A) : Z := Z.of_nat (List.length l).

(** A slice bound as Python normalises it against the length. *)
Definition slice_index (i n : Z) : Z :=
  if i <? 0 then Z.max 0 (i + n) else Z.min i n.

(** [l[start:stop]]. *)
Definition py_slice {A} (l : list A) (start stop : Z) : list A :=
  let s := slice_index start (len l) in
  let e := slice_index stop (len l) in
  firstn (Z.to_nat (e - s)) (skipn (Z.to_nat s) l).

(** [l[i]] for an index [i >= 0]. *)
Definition py_index {A} (l : list A) (i : Z) : result A :=
  if i <? 0 then Raise IndexError
  else match nth_error l (Z.to_nat i) with
       | Some a => Ok a
       | None => Raise IndexError
       end.

(** [sum(values)]: a left fold starting from the int [0]. *)
Definition py_sum (values : list float) : float :=
  fold_left PrimFloat.add values 0%float.

(** *** Dictionaries, in insertion order *)

Definition dict (V : Type) : Type := list (string * V).

Fixpoint dict_get {V} (d : dict V) (k : string) : option V :=
  match d with
  | [] => None
  | (k', v) :: d' => if String.eqb k' k then Some v else dict_get d' k
  end.

(** [d[k] = v]: overwrite in place, or insert at the end. *)
Fixpoint dict_set {V} (d : dict V) (k : string) (v : V) : dict V :=
  match d with
  | [] => [(k, v)]
  | (k', v') :: d' =>
      if String.eqb k' k then (k', v) :: d' else (k', v') :: dict_set d' k v
  end.

(** [d[k]] *)
Definition dict_lookup {V} (d : dict V) (k : string) : result V :=
  match dict_get d k with
  | Some v => Ok v
  | None => Raise KeyError
  end.

(** [d.get(k, default)] *)
Definition dict_get_default {V} (d : dict V) (k : string) (default : V)
  : V :=
  match dict_get d k with
  | Some v => v
  | None => default
  end.

Definition keys {V} (d : dict V) : list string := map fst d.
Definition values {V} (d : dict V) : list V := map snd d.

(** [{k: f(v) for k, v in d.items()}]. *)
Definition dict_map_values {V W} (f : V -> W) (d : dict V) : dict W :=
  map (fun kv => (fst kv, f (snd kv))) d.

(** The scan of [max(items, key=lambda x: x[1])]: the running best is
    replaced only by an item whose value is strictly greater. *)
Fixpoint max_scan (items : list (string * float)) (best : string * float)
  : string * float :=
  match items with
  | [] => best
  | it :: rest =>
      max_scan rest (if PrimFloat.ltb (snd best) (snd it) then it else best)
  end.

Definition py_max_by_value (d : dict float) : result (string * float) :=
  match d with
  | [] => Raise ValueError
  | it :: rest => Ok (max_scan rest it)
  end.

(** *** numpy's [argmax]: first maximum, a NaN counting as maximal *)

Fixpoint argmax_scan (l : list float) (i : Z) (mp : float) (max_ind : Z)
  : Z :=
  match l with
  | [] => max_ind
  | x :: xs =>
      if negb (PrimFloat.leb x mp)
      then if is_nan x then i else argmax_scan xs (i + 1) x i
      else argmax_scan xs (i + 1) mp max_ind
  end.

Definition np_argmax (l : list float) : result Z :=
  match l with
  | [] => Raise ValueError
  | x :: xs => Ok (if is_nan x then 0 else argmax_scan xs 1 x 0)
  end.

(** [range(n)] *)
Definition py_range (n : Z) : list Z :=
  map Z.of_nat (seq 0 (Z.to_nat n)).

(** [for x in xs: s = body(s, x)] *)
Fixpoint for_each {S X} (xs : list X) (body : S -> X -> result S) (s : S)
  : result S :=
  match xs with
  | [] => Ok s
  | x :: rest => bind (body s x) (for_each rest body)
  end.

End Py.

Import Py.

(** ** The numeric and audio libraries the code calls

    librosa, pydub and numpy's array kernels are outside the repository;
    the code is modelled over an interface of the calls it makes. *)
Class AudioLib : Type := {
  (** [librosa.load(path, sr=None, mono=True)] *)
  librosa_load : string -> outcome (list float * Z);
  (** [AudioSegment.from_file(path)], made mono, as float32 samples with the
      frame rate *)
  pydub_samples : string -> outcome (list float * Z);
  (** [np.max(np.abs(a))] *)
  np_max_abs : list float -> outcome float;
  (** [a / s] on an array and a scalar *)
  np_divide_all : list float -> float -> list float;
  (** [librosa.resample(a, orig_sr=_, target_sr=_)] *)
  librosa_resample : list float -> Z -> Z -> outcome (list float);
  (** [a ** 2] *)
  np_square : list float -> list float;
  (** [np.sum(a)] *)
  np_sum : list float -> float;
  (** [s / n] on a numpy scalar and an int *)
  np_divide : float -> Z -> float;
  (** [np.mean(a)], [np.std(a)] *)
  np_mean : list float -> float;
  np_std : list float -> float;
  (** [librosa.feature.zero_crossing_rate(a)], one rate per frame *)
  zero_crossing_rate : list float -> outcome (list float);
  (** [librosa.piptrack(y=a, sr=_)]: pitches and magnitudes, each a list of
      rows (frequency bins) over the frames *)
  piptrack : list float -> Z
             -> outcome (list (list float) * list (list float))
}.

(** ** audio_processing/preprocess.py *)
Module Chunk.
Record t : Type := mk {
  audio_data : list float;
  sample_rate : Z;
  start_time : float;
  end_time : float;
  duration : float
}.
End Chunk.

Module Preprocess.
Section WithLib.
Context {lib : AudioLib}.

Record AudioProcessor : Type := {
  chunk_duration : float;
  sample_rate : Z
}.

(** [AudioProcessor()] with the default arguments. *)
Definition default_processor : AudioProcessor :=
  {| chunk_duration := 3.0%float; sample_rate := 16000 |}.

(** [np.pad(a, (0, k), mode='constant')] *)
Definition np_pad_right (a : list float) (k : Z) : list float :=
  a ++ repeat 0%float (Z.to_nat k).

Definition _load_audio (audio_path : string) : result (list float * Z) :=
  try_except (call (librosa_load audio_path))
    (fun _ =>
       try_except
         (bind (call (pydub_samples audio_path)) (fun '(audio_data, sr) =>
          bind (call (np_max_abs audio_data)) (fun peak =>
          Ok (np_divide_all audio_data peak, sr))))
         (fun _ => Raise LoadFailed)).

(** The state of the [while] loop: [current_position] and [chunks]. *)
Definition loop_state : Type := (Z * list Chunk.t)%type.

(** The chunk appended for the window [start_sample, end_sample). *)
Definition make_chunk (chunk_samples : Z) (audio_data : list float)
    (sample_rate start_sample end_sample : Z) : result Chunk.t :=
  let chunk_audio := py_slice audio_data start_sample end_sample in
  let chunk_audio :=
    if len chunk_audio <? chunk_samples
    then np_pad_right chunk_audio (chunk_samples - len chunk_audio)
    else chunk_audio in
  bind (py_truediv start_sample sample_rate) (fun start_time =>
  bind (py_truediv end_sample sample_rate) (fun end_time =>
  Ok (Chunk.mk chunk_audio sample_rate
        (py_round start_time 2)
        (py_round end_time 2)
        (py_round (end_time - start_time)%float 2)))).

(** One run of the loop body. *)
Definition split_body (chunk_samples : Z) (audio_data : list float)
    (sample_rate : Z) (st : loop_state) : result loop_state :=
  let '(current_position, chunks) := st in
  let total_samples := len audio_data in
  let start_sample := current_position in
  let end_sample :=
    Z.min (current_position + chunk_samples) total_samples in
  bind (make_chunk chunk_samples audio_data sample_rate
          start_sample end_sample)
       (fun chunk => Ok (end_sample, chunks ++ [chunk])).

(** [while current_position < total_samples: ...], then [return chunks]. *)
Fixpoint split_loop (fuel : nat) (chunk_samples : Z)
    (audio_data : list float) (sample_rate : Z) (st : loop_state)
  : result (list Chunk.t) :=
  if fst st <? len audio_data then
    match fuel with
    | O => OutOfFuel
    | S fuel' =>
        bind (split_body chunk_samples audio_data sample_rate st)
             (split_loop fuel' chunk_samples audio_data sample_rate)
    end
  else Ok (snd st).

(** [int(self.chunk_duration * sample_rate)] *)
Definition chunk_samples_of (self : AudioProcessor) (sample_rate : Z)
  : result Z :=
  bind (py_float_of_int sample_rate) (fun sr =>
  py_int (chunk_duration self * sr)%float).

Definition _split_into_chunks (fuel : nat) (self : AudioProcessor)
    (audio_data : list float) (sample_rate : Z) : result (list Chunk.t) :=
  bind (chunk_samples_of self sample_rate) (fun chunk_samples =>
  split_loop fuel chunk_samples audio_data sample_rate (0, [])).

(** *** Closed forms the segmentation is compared with *)

(** [n] runs of the loop body, the guard left aside. *)
Fixpoint body_iter (n : nat) (chunk_samples : Z) (audio_data : list float)
    (sample_rate : Z) (st : loop_state) : result loop_state :=
  match n with
  | O => Ok st
  | S n' =>
      bind (split_body chunk_samples audio_data sample_rate st)
           (body_iter n' chunk_samples audio_data sample_rate)
  end.

(** The chunk [make_chunk] builds when the sample rate is not zero. *)
Definition chunk_of_window (chunk_samples : Z) (audio_data : list float)
    (sample_rate : Z) (w : Z * Z) : Chunk.t :=
  let '(start_sample, end_sample) := w in
  let chunk_audio := py_slice audio_data start_sample end_sample in
  let chunk_audio :=
    if len chunk_audio <? chunk_samples
    then np_pad_right chunk_audio (chunk_samples - len chunk_audio)
    else chunk_audio in
  let start_time := truediv_float start_sample sample_rate in
  let end_time := truediv_float end_sample sample_rate in
  Chunk.mk chunk_audio sample_rate
    (py_round start_time 2) (py_round end_time 2)
    (py_round (end_time - start_time)%float 2).

(** Number of windows of [chunk_samples] samples needed for
    [total_samples] samples, and the windows as sample ranges. *)
Definition window_count (chunk_samples total_samples : Z) : Z :=
  (total_samples + chunk_samples - 1) / chunk_samples.

Definition window (chunk_samples total_samples k : Z) : Z * Z :=
  (k * chunk_samples,
   Z.min (k * chunk_samples + chunk_samples) total_samples).

Definition windows (chunk_samples total_samples : Z) : list (Z * Z) :=
  map (window chunk_samples total_samples)
      (py_range (window_count chunk_samples total_samples)).

(** The windows from the [k]-th on. *)
Definition windows_from (chunk_samples total_samples k : Z)
  : list (Z * Z) :=
  map (fun i => window chunk_samples total_samples (k + Z.of_nat i))
      (seq 0 (Z.to_nat (window_count chunk_samples total_samples - k))).

(** [ws] are non-empty sample ranges that follow one another from [a] to
    [b]: no gap, no overlap. *)
Fixpoint tiles (ws : list (Z * Z)) (a b : Z) : Prop :=
  match ws with
  | [] => a = b
  | (s, e) :: rest => s = a /\ s < e /\ tiles rest e b
  end.

(** Each reported interval ends where the next one starts. *)
Fixpoint abutting (chunks : list Chunk.t) : Prop :=
  match chunks with
  | c1 :: (c2 :: _) as rest =>
      Chunk.end_time c1 = Chunk.start_time c2 /\ abutting rest
  | _ => True
  end.

Definition process_audio (fuel : nat) (self : AudioProcessor)
    (audio_path : string) : result (list Chunk.t) :=
  bind (_load_audio audio_path) (fun '(audio_data, original_sr) =>
  bind (if negb (original_sr =? sample_rate self)
        then call (librosa_resample audio_data original_sr
                     (sample_rate self))
        else Ok audio_data) (fun audio_data =>
  _split_into_chunks fuel self audio_data (sample_rate self))).

End WithLib.
End Preprocess.

(** ** emotion_model/model.py *)
Module Features.
Record t : Type := mk {
  energy : float;
  zero_crossing_rate : float;
  pitch_mean : float;
  pitch_std : float
}.
End Features.

Module Prediction.
Record t : Type := mk {
  emotion : string;
  confidence : float;
  scores : dict float
}.
End Prediction.

Module Model.
Section WithLib.
Context {lib : AudioLib}.

(** The pretrained network with its feature extractor, up to the softmax:
    the probabilities of the first batch row, or an exception. *)
Definition network : Type := list float -> Z -> outcome (list float).

Record EmotionDetector : Type := {
  model : option network;
  emotions : list string
}.

Definition model_emotions : list string :=
  ["angry"; "calm"; "disgust"; "fearful"; "happy"; "neutral"; "sad";
   "surprised"]%string.

Definition fallback_emotions : list string :=
  ["neutral"; "happy"; "sad"; "angry"; "fearful"; "surprised"]%string.

(** [EmotionDetector()], on the outcome of [from_pretrained]. *)
Definition __init__ (pretrained : outcome network) : EmotionDetector :=
  match pretrained with
  | Returns net => {| model := Some net; emotions := model_emotions |}
  | Raises _ => {| model := None; emotions := fallback_emotions |}
  end.

(** [m.shape[1]] and [m[:, t]] on a matrix given by its rows. *)
Definition shape1 (m : list (list float)) : Z :=
  match m with
  | [] => 0
  | row :: _ => len row
  end.

Definition column (m : list (list float)) (t : Z) : result (list float) :=
  mapM (fun row => py_index row t) m.

(** The body of [for t in range(pitches.shape[1])]. *)
Definition pitch_frame (pitches magnitudes : list (list float))
    (pitch_values : list float) (t : Z) : result (list float) :=
  bind (column magnitudes t) (fun col =>
  bind (np_argmax col) (fun index =>
  bind (py_index pitches index) (fun row =>
  bind (py_index row t) (fun pitch =>
  Ok (if (0 <? pitch)%float then pitch_values ++ [pitch]
      else pitch_values))))).

Definition _extract_features (audio_data : list float) (sample_rate : Z)
  : result Features.t :=
  let energy := np_divide (np_sum (np_square audio_data)) (len audio_data) in
  bind (call (zero_crossing_rate audio_data)) (fun frames =>
  let zcr := np_mean frames in
  bind (try_except
          (bind (call (piptrack audio_data sample_rate))
             (fun '(pitches, magnitudes) =>
          bind (for_each (py_range (shape1 pitches))
                  (pitch_frame pitches magnitudes) [])
             (fun pitch_values =>
          Ok (match pitch_values with
              | [] => (0%float, 0%float)
              | _ => (np_mean pitch_values, np_std pitch_values)
              end))))
          (fun _ => Ok (0%float, 0%float)))
       (fun '(pitch_mean, pitch_std) =>
  Ok (Features.mk energy zcr pitch_mean pitch_std))).

(** [{emotion: 0.0 for emotion in self.emotions}] *)
Definition initial_scores (emotions : list string) : dict float :=
  fold_left (fun d emotion => dict_set d emotion 0.0%float) emotions [].

(** The threshold cascade of [_predict_with_features]. *)
Definition rule_scores (scores : dict float) (features : Features.t)
  : dict float :=
  let energy := Features.energy features in
  let zcr := Features.zero_crossing_rate features in
  let pitch_mean := Features.pitch_mean features in
  let pitch_std := Features.pitch_std features in
  if (0.5 <? energy)%float then
    if (50 <? pitch_std)%float then
      dict_set (dict_set scores "angry" 0.4%float) "surprised" 0.3%float
    else
      dict_set scores "happy" 0.5%float
  else if (energy <? 0.2)%float then
    if (pitch_mean <? 150)%float then
      dict_set scores "sad" 0.6%float
    else
      dict_set scores "neutral" 0.5%float
  else
    let scores :=
      if (0.1 <? zcr)%float then dict_set scores "fearful" 0.4%float
      else scores in
    dict_set scores "neutral" 0.4%float.

(** The normalisation step with its guard. *)
Definition normalize_scores (scores : dict float) : dict float :=
  let total := py_sum (values scores) in
  if (0 <? total)%float
  then dict_map_values (fun v => (v / total)%float) scores
  else dict_set scores "neutral" 1.0%float.

(** [_predict_with_features] from the extracted features on. *)
Definition classify_features (self : EmotionDetector)
    (features : Features.t) : result Prediction.t :=
  let scores := initial_scores (emotions self) in
  let scores := rule_scores scores features in
  let scores := normalize_scores scores in
  bind (py_max_by_value scores) (fun best =>
  let predicted_emotion := fst best in
  bind (dict_lookup scores predicted_emotion) (fun confidence =>
  Ok (Prediction.mk predicted_emotion (py_round confidence 4) scores))).

Definition _predict_with_features (self : EmotionDetector)
    (audio_data : list float) (sample_rate : Z) : result Prediction.t :=
  bind (_extract_features audio_data sample_rate)
       (classify_features self).

(** [_predict_with_model] once the network has answered. *)
Definition predict_from_probabilities (self : EmotionDetector)
    (probabilities : list float) : result Prediction.t :=
  bind (np_argmax probabilities) (fun predicted_idx =>
  bind (py_index (emotions self) predicted_idx) (fun predicted_emotion =>
  bind (py_index probabilities predicted_idx) (fun confidence =>
  let scores :=
    fold_left (fun d kv => dict_set d (fst kv) (snd kv))
              (combine (emotions self) probabilities) [] in
  Ok (Prediction.mk predicted_emotion (py_round confidence 4) scores)))).

(** The [except] branch sees [audio_data] and [sample_rate] as the [try]
    block left them: resampled when the resampling went through. *)
Definition _predict_with_model (self : EmotionDetector) (net : network)
    (audio_data : list float) (sample_rate : Z) : result Prediction.t :=
  let resampled :=
    if negb (sample_rate =? 16000)
    then bind (call (librosa_resample audio_data sample_rate 16000))
              (fun a => Ok (a, 16000))
    else Ok (audio_data, sample_rate) in
  match resampled with
  | Ok (audio_data', sample_rate') =>
      try_except
        (bind (call (net audio_data' sample_rate'))
              (predict_from_probabilities self))
        (fun _ => _predict_with_features self audio_data' sample_rate')
  | Raise _ => _predict_with_features self audio_data sample_rate
  | OutOfFuel => OutOfFuel
  end.

Definition predict_emotion (self : EmotionDetector)
    (audio_data : list float) (sample_rate : Z) : result Prediction.t :=
  match model self with
  | Some net => _predict_with_model self net audio_data sample_rate
  | None => _predict_with_features self audio_data sample_rate
  end.

End WithLib.
End Model.

(** ** app.py *)
Module Result.
Record t : Type := mk {
  start_time : float;
  end_time : float;
  emotion : string;
  confidence : float;
  all_scores : dict float
}.
End Result.

Module Change.
Record t : Type := mk {
  timestamp : float;
  from_emotion : string;
  to_emotion : string;
  confidence : float
}.
End Change.

Module Statistics.
Record t : Type := mk {
  total_duration : float;
  emotion_counts : dict Z;
  emotion_durations : dict float;
  emotion_percentages : dict float;
  dominant_emotion : string
}.
End Statistics.

Module App.
Section WithLib.
Context {lib : AudioLib}.

(** The body of [for i in range(1, len(results))]; the state is
    [(changes, previous_emotion)]. *)
Definition changes_step (results : list Result.t)
    (st : list Change.t * string) (i : nat) : list Change.t * string :=
  let '(changes, previous_emotion) := st in
  match nth_error results i with
  | None => st
  | Some result_i =>
      let current_emotion := Result.emotion result_i in
      if negb (String.eqb current_emotion previous_emotion)
      then (changes ++ [Change.mk (Result.start_time result_i)
                                  previous_emotion current_emotion
                                  (Result.confidence result_i)],
            current_emotion)
      else (changes, previous_emotion)
  end.

Definition detect_emotion_changes (results : list Result.t)
  : list Change.t :=
  if len results <? 2 then []
  else
    match results with
    | [] => []
    | result_0 :: _ =>
        fst (fold_left (changes_step results)
               (seq 1 (List.length results - 1))
               ([], Result.emotion result_0))
    end.

(** The accumulators of [calculate_statistics]:
    [(emotion_counts, emotion_durations, total_duration)]. *)
Definition accumulators : Type := (dict Z * dict float * float)%type.

(** The body of [for result in results]. *)
Definition stats_step (acc : accumulators) (result : Result.t)
  : accumulators :=
  let '(emotion_counts, emotion_durations, total_duration) := acc in
  let emotion := Result.emotion result in
  let duration :=
    (Result.end_time result - Result.start_time result)%float in
  (dict_set emotion_counts emotion
     (dict_get_default emotion_counts emotion 0 + 1),
   dict_set emotion_durations emotion
     (dict_get_default emotion_durations emotion 0 + duration)%float,
   (total_duration + duration)%float).

Definition accumulate (results : list Result.t) : accumulators :=
  fold_left stats_step results ([], [], 0%float).

(** [duration / total_duration * 100 if total_duration > 0 else 0] *)
Definition percentage (total_duration duration : float) : float :=
  if (0 <? total_duration)%float
  then (duration / total_duration * 100)%float
  else 0%float.

(** [max(d.items(), key=lambda x: x[1])[0] if d else 'Unknown'] *)
Definition dominant (emotion_durations : dict float) : string :=
  match emotion_durations with
  | [] => "Unknown"%string
  | it :: rest => fst (max_scan rest it)
  end.

Definition calculate_statistics (results : list Result.t) : Statistics.t :=
  let '(emotion_counts, emotion_durations, total_duration) :=
    accumulate results in
  let emotion_percentages :=
    dict_map_values (percentage total_duration) emotion_durations in
  let dominant_emotion := dominant emotion_durations in
  Statistics.mk
    (py_round total_duration 2)
    emotion_counts
    (dict_map_values (fun v => py_round v 2) emotion_durations)
    (dict_map_values (fun v => py_round v 2) emotion_percentages)
    dominant_emotion.

(** What [analyze_audio] answers. *)
Inductive Response : Type :=
| Success (results : list Result.t) (emotion_changes : list Change.t)
          (statistics : Statistics.t)
| Failure (status : Z).

(** [analyze_audio] from the saved upload on: every exception becomes the
    answer 500. *)
Definition analyze_audio (fuel : nat)
    (audio_processor : Preprocess.AudioProcessor)
    (emotion_detector : Model.EmotionDetector) (filepath : string)
  : result Response :=
  try_except
    (bind (Preprocess.process_audio fuel audio_processor filepath)
       (fun chunks =>
     bind (mapM (fun chunk =>
                   bind (Model.predict_emotion emotion_detector
                           (Chunk.audio_data chunk)
                           (Chunk.sample_rate chunk))
                        (fun emotion_data =>
                   Ok (Result.mk (Chunk.start_time chunk)
                                 (Chunk.end_time chunk)
                                 (Prediction.emotion emotion_data)
                                 (Prediction.confidence emotion_data)
                                 (Prediction.scores emotion_data))))
                chunks)
       (fun results =>
     Ok (Success results
                 (detect_emotion_changes results)
                 (calculate_statistics results)))))
    (fun _ => Ok (Failure 500)).

End WithLib.
End App.

(** ** A small stand-in for the libraries

    Binary64 arithmetic, sequential sums, the zero-crossing rate over
    librosa's frames, a pitch tracker that finds no pitch, no codec and no
    resampler: enough to run the model on
    concrete inputs.  [files] is the content of the file system as
    [librosa.load] decodes it. *)
Module Reference.

(** [librosa.feature.zero_crossing_rate] with its defaults: the waveform
    must be finite everywhere; it is padded on each side with
    [frame_length // 2] copies of its first and of its last sample, which
    numpy refuses for an empty array; the frames are [frame_length] samples
    long, one every [hop_length] samples; a frame gives the fraction of its
    samples whose sign bit differs from that of the sample before, a sample
    within [1e-10] of 0 counting as 0. *)
Definition frame_length : Z := 2048.
Definition hop_length : Z := 512.

Definition signbit (x : float) : bool := PrimFloat.ltb x (-1e-10).

Definition sign_changes (a : list float) : Z :=
  len (filter (fun p => negb (Bool.eqb (signbit (fst p)) (signbit (snd p))))
              (combine a (tl a))).

Definition pad_edge (n : Z) (a : list float) : outcome (list float) :=
  match a with
  | [] => Raises ValueError
  | x :: _ =>
      Returns (repeat x (Z.to_nat n) ++ a ++ repeat (last a x) (Z.to_nat n))
  end.

Fixpoint frame (n_frames : nat) (y : list float) : list (list float) :=
  match n_frames with
  | O => []
  | S n => firstn (Z.to_nat frame_length) y
           :: frame n (skipn (Z.to_nat hop_length) y)
  end.

Definition crossing_rate (a : list float) : outcome (list float) :=
  if negb (forallb PrimFloat.is_finite a) then Raises LibraryError
  else
    match pad_edge (frame_length / 2) a with
    | Raises e => Raises e
    | Returns y =>
        let n_frames := 1 + (len y - frame_length) / hop_length in
        Returns (map (fun f => (float_of_Z (sign_changes f)
                                / float_of_Z frame_length)%float)
                     (frame (Z.to_nat n_frames) y))
    end.

Definition mean (a : list float) : float :=
  (py_sum a / float_of_Z (len a))%float.

Definition std (a : list float) : float :=
  let m := mean a in
  PrimFloat.sqrt (mean (map (fun x => ((x - m) * (x - m))%float) a)).

Definition max_abs (a : list float) : outcome float :=
  match a with
  | [] => Raises ValueError
  | x :: xs =>
      Returns (fold_left (fun m y => if PrimFloat.ltb m (PrimFloat.abs y)
                                then PrimFloat.abs y else m)
                    xs (PrimFloat.abs x))
  end.

Definition lib (files : string -> outcome (list float * Z)) : AudioLib := {|
  librosa_load := files;
  pydub_samples := fun _ => Raises LibraryError;
  np_max_abs := max_abs;
  np_divide_all := fun a s => map (fun x => (x / s)%float) a;
  librosa_resample := fun _ _ _ => Raises LibraryError;
  np_square := map (fun x => (x * x)%float);
  np_sum := py_sum;
  np_divide := fun s n => (s / float_of_Z n)%float;
  np_mean := mean;
  np_std := std;
  zero_crossing_rate := crossing_rate;
  piptrack := fun a _ =>
    let track := repeat (repeat 0%float (Z.to_nat (1 + len a / 512))) 3 in
    Returns (track, track)
|}.

Definition no_files : string -> outcome (list float * Z) :=
  fun _ => Raises LibraryError.

End Reference.

(** ** The order of binary64 numbers

    A float that is not a NaN is placed by a key of three integers, compared
    lexicographically: the class (negative infinity, negative, zero,
    positive, positive infinity), then the exponent, then the mantissa. *)
Definition SFkey (x : spec_float) : Z * Z * Z :=
  match x with
  | S754_infinity true => (-2, 0, 0)
  | S754_finite true m e => (-1, - e, Zneg m)
  | S754_zero _ => (0, 0, 0)
  | S754_finite false m e => (1, e, Zpos m)
  | S754_infinity false => (2, 0, 0)
  | S754_nan => (3, 0, 0)
  end.

Definition key_lt (a b : Z * Z * Z) : Prop :=
  let '(a1, a2, a3) := a in
  let '(b1, b2, b3) := b in
  a1 < b1 \/ (a1 = b1 /\ (a2 < b2 \/ (a2 = b2 /\ a3 < b3))).

Definition key_le (a b : Z * Z * Z) : Prop := key_lt a b \/ a = b.

(** [x] is a number: not a NaN. *)
Definition number (x : float) : Prop := is_nan x = false.

Definition float_key (x : float) : Z * Z * Z := SFkey (Prim2SF x).

(** ** The decision table of the specification (section 4.3)

    Read as it is written: the rows from top to bottom, the first row whose
    condition holds assigns its scores, every other label scores 0; then the
    scores are divided by their sum, or [neutral] is set to 1 when the sum is
    0. *)
Module Table.






End Table.


(** [k] is the first key of [d] that carries the greatest value: the values
    before it are smaller, those after it are not greater. *)
Definition first_argmax (d : dict float) (k : string) : Prop :=
  exists before v after,
    d = before ++ (k, v) :: after /\
    Forall (fun kv => (snd kv <? v)%float = true) before /\
    Forall (fun kv => (snd kv <=? v)%float = true) after.

Fixpoint first_argmaxb (before d : dict float) (k : string) : bool :=
  match d with
  | [] => false
  | (k', v) :: after =>
      if String.eqb k' k
      then forallb (fun kv => (snd kv <? v)%float) before
           && forallb (fun kv => (snd kv <=? v)%float) after
      else first_argmaxb (before ++ [(k', v)]) after k
  end.

(** What holds of a prediction over the labels [emotions]: the scores are
    keyed by the labels in their order, the confidence is the score of the
    predicted label rounded to four decimals, and that label is the first
    arg-max of the scores. *)
Definition coherent (emotions : list string) (p : Prediction.t) : Prop :=
  keys (Prediction.scores p) = emotions /\
  (exists v,
     dict_get (Prediction.scores p) (Prediction.emotion p) = Some v /\
     Prediction.confidence p = py_round v 4) /\
  first_argmax (Prediction.scores p) (Prediction.emotion p).

Definition coherentb (emotions : list string) (p : Prediction.t) : bool :=
  (if list_eq_dec string_dec (keys (Prediction.scores p)) emotions
   then true else false)
  && match dict_get (Prediction.scores p) (Prediction.emotion p) with
     | Some v => PrimFloat.Leibniz.eqb (Prediction.confidence p) (py_round v 4)
     | None => false
     end
  && first_argmaxb [] (Prediction.scores p) (Prediction.emotion p).

(** A distribution: no negative value, and the exact sum of the values within
    [1e-6] of 1. *)
Definition is_distribution (d : dict float) : Prop :=
  Forall (fun v => (0 <=? v)%float = true) (values d) /\
  exists q, exact_sum (values d) = Some q /\
            (Qabs (q - 1) <= 1 # 1000000)%Q.

Definition is_distributionb (d : dict float) : bool :=
  forallb (fun v => (0 <=? v)%float) (values d)
  && match exact_sum (values d) with
     | Some q => Qle_bool (Qabs (q - 1)) (1 # 1000000)
     | None => false
     end.

(** The network answers with one number per label. *)
Definition well_behaved (net : Model.network) : Prop :=
  forall audio_data sample_rate probabilities,
    net audio_data sample_rate = Returns probabilities ->
    List.length probabilities = List.length Model.model_emotions /\
    Forall number probabilities.

(** The detector when the pretrained model could not be loaded, and when it
    could. *)
Definition fallback_detector : Model.EmotionDetector :=
  Model.__init__ (Raises LibraryError).

Definition model_detector (net : Model.network) : Model.EmotionDetector :=
  Model.__init__ (Returns net).

(** A network that raises on every call, and one with a fixed answer. *)
Definition failing_network : Model.network :=
  fun _ _ => Raises LibraryError.

Definition constant_network : Model.network :=
  fun _ _ => Returns [0.1; 0.2; 0.05; 0.05; 0.3; 0.1; 0.1; 0.1]%float.


(** The feature vectors of the examples. *)
Definition loud_varied : Features.t :=
  Features.mk 0.6%float 0.05%float 100%float 60%float.


Definition medium_noisy : Features.t :=
  Features.mk 0.3%float 0.2%float 0%float 0%float.

(** ** The aggregation as the specification words it (section 4.6) *)

(** Walk the predictions with the previous emotion at hand: a prediction with
    another emotion emits an event and becomes the previous one. *)
Fixpoint changes_walk (previous_emotion : string)
    (predictions : list Result.t) : list Change.t :=
  match predictions with
  | [] => []
  | p :: rest =>
      if String.eqb (Result.emotion p) previous_emotion
      then changes_walk previous_emotion rest
      else Change.mk (Result.start_time p) previous_emotion
                     (Result.emotion p) (Result.confidence p)
           :: changes_walk (Result.emotion p) rest
  end.

(** The first prediction sets the previous emotion and emits nothing. *)
Definition detect_changes (predictions : list Result.t) : list Change.t :=
  match predictions with
  | [] => []
  | first :: rest => changes_walk (Result.emotion first) rest
  end.

(** [end_time - start_time] of a prediction. *)
Definition span (p : Result.t) : float :=
  (Result.end_time p - Result.start_time p)%float.

(** The predictions labelled [e], in order. *)
Definition labelled (e : string) (predictions : list Result.t)
  : list Result.t :=
  filter (fun p => String.eqb (Result.emotion p) e) predictions.

(** The sum of the spans of the predictions labelled [e], and of all the
    predictions, added in order from 0. *)
Definition cumulative_duration (e : string) (predictions : list Result.t)
  : float :=
  py_sum (map span (labelled e predictions)).

Definition overall_duration (predictions : list Result.t) : float :=
  py_sum (map span predictions).

(** The labels in the order in which they are first seen. *)
Definition note (seen : list string) (e : string) : list string :=
  if existsb (String.eqb e) seen then seen else seen ++ [e].

Definition first_seen (predictions : list Result.t) : list string :=
  fold_left note (map Result.emotion predictions) [].

(** A prediction with the given label and times. *)
Definition labelled_span (e : string) (start_time end_time : float)
  : Result.t :=
  Result.mk start_time end_time e 1%float [(e, 1%float)].

(** Six seconds of [happy], three of [sad], one of [neutral]. *)
Definition ten_seconds : list Result.t :=
  [labelled_span "happy" 0 3; labelled_span "happy" 3 6;
   labelled_span "sad" 6 9; labelled_span "neutral" 9 10]%float.

(** One second of [happy], two of [sad]. *)
Definition three_seconds : list Result.t :=
  [labelled_span "happy" 0 1; labelled_span "sad" 1 3]%float.

(** ** Concrete inputs and read-outs *)

(** A silent waveform of [n] samples. *)
Definition zeros (n : Z) : list float := repeat 0%float (Z.to_nat n).

(** The reported [(start_time, end_time, duration)] of a segmentation. *)
Definition reported (r : result (list Chunk.t))
  : result (list (float * float * float)) :=
  bind r (fun chunks =>
  Ok (map (fun c => (Chunk.start_time c, Chunk.end_time c, Chunk.duration c))
          chunks)).

(** [round(x)]: the nearest int, ties to even. *)
Definition py_round_int (x : float) : result Z := py_int (py_round x 0).

(** A processor whose chunks are shorter than one sample. *)
Definition short_processor : Preprocess.AudioProcessor :=
  {| Preprocess.chunk_duration := 0.00001%float;
     Preprocess.sample_rate := 16000 |}.

(** A processor whose chunks are 1.6 samples long. *)
Definition fractional_processor : Preprocess.AudioProcessor :=
  {| Preprocess.chunk_duration := 0.0001%float;
     Preprocess.sample_rate := 16000 |}.

(** A file system whose every recording decodes to no sample at 16 kHz. *)
Definition empty_recording : string -> outcome (list float * Z) :=
  fun _ => Returns ([], 16000).

(** ** app.py: the checks on the upload *)
From Stdlib Require Ascii DecimalString.

Module Web.
Import Ascii.

(** A [str] is taken over the code points below 256.  [c.lower()] moves the
    capital letters, ASCII and Latin-1, to their small letters. *)
Definition lower_char (c : ascii) : ascii :=
  let n := N_of_ascii c in
  if ((65 <=? n) && (n <=? 90)
      || (192 <=? n) && (n <=? 222) && negb (n =? 215))%N
  then ascii_of_N (n + 32)
  else c.

Fixpoint lower (s : string) : string :=
  match s with
  | EmptyString => EmptyString
  | String c rest => String (lower_char c) (lower rest)
  end.

(** [c in s] *)
Fixpoint contains (c : ascii) (s : string) : bool :=
  match s with
  | EmptyString => false
  | String c' rest => Ascii.eqb c' c || contains c rest
  end.

(** The two sides of the last [sep] of [s], if there is one. *)
Fixpoint rsplit_last (sep : ascii) (s : string) : option (string * string) :=
  match s with
  | EmptyString => None
  | String c rest =>
      match rsplit_last sep rest with
      | Some (before, after) => Some (String c before, after)
      | None => if Ascii.eqb c sep then Some (EmptyString, rest) else None
      end
  end.

(** [s.rsplit(sep, 1)] *)
Definition py_rsplit1 (sep : ascii) (s : string) : list string :=
  match rsplit_last sep s with
  | Some (before, after) => [before; after]
  | None => [s]
  end.

(** [app.config['ALLOWED_EXTENSIONS']], a set. *)
Definition ALLOWED_EXTENSIONS : list string :=
  ["wav"; "mp3"; "flac"; "ogg"; "m4a"]%string.

(** [app.config['UPLOAD_FOLDER']] *)
Definition UPLOAD_FOLDER : string := "uploads".

Definition allowed_file (filename : string) : result bool :=
  if contains "." filename
  then bind (py_index (py_rsplit1 "." filename) 1) (fun extension =>
       Ok (existsb (String.eqb (lower extension)) ALLOWED_EXTENSIONS))
  else Ok false.

(** werkzeug's [secure_filename], [os.path.join], [file.save] and
    [os.remove]: calls out of the repository. *)
Class UploadIO : Type := {
  secure_filename : string -> string;
  path_join : string -> string -> string;
  file_save : string -> outcome unit;
  os_remove : string -> outcome unit
}.

(** What a request leaves on the disk. *)
Inductive effect : Type :=
| Saved (filepath : string)
| Removed (filepath : string).

Section WithLib.
Context {lib : AudioLib} {io : UploadIO}.

(** The whole of [analyze_audio]: the request carries the file name of its
    ['audio'] part, if it has one.  The answer comes with the effects on the
    disk, in order.  The block from [process_audio] to [calculate_statistics]
    is [App.analyze_audio], which completes exactly when it answers
    [Success]. *)
Definition analyze_request (fuel : nat)
    (audio_processor : Preprocess.AudioProcessor)
    (emotion_detector : Model.EmotionDetector) (request : option string)
  : list effect * result App.Response :=
  match request with
  | None => ([], Ok (App.Failure 400))
  | Some file_filename =>
      if String.eqb file_filename "" then ([], Ok (App.Failure 400))
      else
        match allowed_file file_filename with
        | Ok false => ([], Ok (App.Failure 400))
        | Raise _ => ([], Ok (App.Failure 500))
        | OutOfFuel => ([], OutOfFuel)
        | Ok true =>
            let filename := secure_filename file_filename in
            let filepath := path_join UPLOAD_FOLDER filename in
            match file_save filepath with
            | Raises _ => ([], Ok (App.Failure 500))
            | Returns _ =>
                match App.analyze_audio fuel audio_processor emotion_detector
                        filepath with
                | Ok (App.Success results emotion_changes stats) =>
                    match os_remove filepath with
                    | Returns _ =>
                        ([Saved filepath; Removed filepath],
                         Ok (App.Success results emotion_changes stats))
                    | Raises _ => ([Saved filepath], Ok (App.Failure 500))
                    end
                | other => ([Saved filepath], other)
                end
            end
        end
  end.

End WithLib.
End Web.

(** ** audio_processing/preprocess.py: [format_timestamp] *)
Module Timestamp.

(** The argument is an [int] or a [float]. *)
Inductive py_number : Type :=
| PyInt (n : Z)
| PyFloat (x : float).

(** C's [fmod]: the remainder has the sign of [x] and is exact. *)
Definition c_fmod (x y : float) : float :=
  match Prim2SF x, Prim2SF y with
  | S754_nan, _ | _, S754_nan => nan
  | S754_infinity _, _ => nan
  | _, S754_zero _ => nan
  | S754_zero _, _ => x
  | S754_finite _ _ _, S754_infinity _ => x
  | S754_finite sx mx ex, S754_finite _ my ey =>
      let e0 := Z.min ex ey in
      let r := (Zpos mx * 2 ^ (ex - e0)) mod (Zpos my * 2 ^ (ey - e0)) in
      SF2Prim (binary_normalize prec emax (if sx then - r else r) e0 sx)
  end.

(** C's [floor]. *)
Definition c_floor (x : float) : float :=
  match Prim2SF x with
  | S754_finite s m e =>
      if 0 <=? e then x
      else
        let q := (if s then Zneg m else Zpos m) / 2 ^ (- e) in
        SF2Prim (binary_normalize prec emax q 0 false)
  | _ => x
  end.

(** [copysign(0.0, y)] *)
Definition copysign_zero (y : float) : float :=
  if get_sign y then (-0)%float else 0%float.

(** The truth value of a C double: not equal to 0. *)
Definition nonzero (x : float) : bool := negb (x =? 0)%float.

(** CPython's [_float_div_mod], behind [vx // wx] on floats. *)
Definition float_floordiv (vx wx : float) : result float :=
  if (wx =? 0)%float then Raise ZeroDivisionError
  else
    let mod_ := c_fmod vx wx in
    let div := ((vx - mod_) / wx)%float in
    let div :=
      if nonzero mod_
      then if negb (Bool.eqb (wx <? 0)%float (mod_ <? 0)%float)
           then (div - 1)%float
           else div
      else div in
    Ok (if nonzero div
        then let floordiv := c_floor div in
             if (0.5 <? div - floordiv)%float then (floordiv + 1)%float
             else floordiv
        else copysign_zero (vx / wx)%float).

(** CPython's [float_rem], behind [vx % wx] on floats. *)
Definition float_rem (vx wx : float) : result float :=
  if (wx =? 0)%float then Raise ZeroDivisionError
  else
    let mod_ := c_fmod vx wx in
    Ok (if nonzero mod_
        then if negb (Bool.eqb (wx <? 0)%float (mod_ <? 0)%float)
             then (mod_ + wx)%float
             else mod_
        else copysign_zero wx).

(** The decimal digits of [n >= 0]. *)
Definition decimal (n : Z) : string :=
  DecimalString.NilZero.string_of_uint (N.to_uint (Z.to_N n)).

(** [sys.get_int_max_str_digits()] as CPython sets it, from 3.11 on: an
    int with more decimal digits is not converted to a string. *)
Definition int_max_str_digits : nat := 4300.

(** [f"{z:02d}"]: at least two characters, the sign first, zeros next;
    ValueError when [z] has more digits than the limit. *)
Definition format_02d (z : Z) : result string :=
  let d := decimal (Z.abs z) in
  if (int_max_str_digits <? String.length d)%nat then Raise ValueError
  else if z <? 0 then Ok ("-" ++ d)%string
  else if (String.length d <? 2)%nat then Ok ("0" ++ d)%string
  else Ok d.

(** [f"{minutes:02d}:{secs:02d}"], the fields formatted from left to
    right. *)
Definition format_fields (minutes secs : Z) : result string :=
  bind (format_02d minutes) (fun mm =>
  bind (format_02d secs) (fun ss =>
  Ok (mm ++ ":" ++ ss)%string)).

Definition format_timestamp (seconds : py_number) : result string :=
  match seconds with
  | PyInt n =>
      let minutes := n / 60 in
      let secs := n mod 60 in
      format_fields minutes secs
  | PyFloat x =>
      bind (float_floordiv x (float_of_Z 60)) (fun q =>
      bind (py_int q) (fun minutes =>
      bind (float_rem x (float_of_Z 60)) (fun r =>
      bind (py_int r) (fun secs =>
      format_fields minutes secs))))
  end.

End Timestamp.

(** ** Read-outs for the further properties *)

(** The two decimal digits of [d], [0 <= d < 100]. *)
Definition two_digits (d : Z) : string :=
  String (Ascii.ascii_of_N (Z.to_N (48 + d / 10)))
    (String (Ascii.ascii_of_N (Z.to_N (48 + d mod 10))) EmptyString).

(** The number of decimal digits of [z], and [z] written with its sign on
    two characters at least. *)
Definition digits (z : Z) : nat :=
  String.length (Timestamp.decimal (Z.abs z)).

Definition signed_digits (z : Z) : string :=
  let d := Timestamp.decimal (Z.abs z) in
  if z <? 0 then ("-" ++ d)%string
  else if (String.length d <? 2)%nat then ("0" ++ d)%string
  else d.

(** [format_02d] writes the two digits of [d]. *)
Definition writes_two_digits (d : Z) : bool :=
  match Timestamp.format_02d d with
  | Ok s => String.eqb s (two_digits d)
  | _ => false
  end.

(** [f] holds of [0], ..., [n - 1]. *)
Definition range_check (n : Z) (f : Z -> bool) : bool :=
  forallb f (map Z.of_nat (seq 0 (Z.to_nat n))).

(** A float of whole seconds is formatted as the int is. *)
Definition same_as_int (n : Z) : bool :=
  match Timestamp.format_timestamp (Timestamp.PyFloat (float_of_Z n)),
        Timestamp.format_timestamp (Timestamp.PyInt n) with
  | Ok s, Ok s' => String.eqb s s'
  | _, _ => false
  end.

(** The zero-crossing rate is computed on what the rules may be given for
    [audio_data]: the waveform itself, or its resampling at 16 kHz when the
    resampler returns one. *)
Definition crossings_computable {lib : AudioLib} (audio_data : list float)
    (sample_rate : Z) : Prop :=
  forall a,
    a = audio_data \/
    librosa_resample audio_data sample_rate 16000 = Returns a ->
    exists frames, zero_crossing_rate a = Returns frames.

(** A float that is a number and not an infinity. *)
Definition finite (x : float) : bool :=
  match Prim2SF x with
  | S754_zero _ | S754_finite _ _ _ => true
  | _ => false
  end.

(** The event of a prediction that follows [previous], if their emotions
    differ. *)
Definition change_between (previous current : Result.t) : list Change.t :=
  if String.eqb (Result.emotion current) (Result.emotion previous) then []
  else [Change.mk (Result.start_time current) (Result.emotion previous)
                  (Result.emotion current) (Result.confidence current)].

(** The events of the adjacent pairs of predictions. *)
Definition adjacent_changes (predictions : list Result.t) : list Change.t :=
  flat_map (fun pair => change_between (fst pair) (snd pair))
           (combine predictions (tl predictions)).

(** The events form a chain of emotions from [first] to [last]: each starts
    where the one before it ended, and none stays on its emotion. *)
Fixpoint chained (first : string) (events : list Change.t) (last : string)
  : Prop :=
  match events with
  | [] => first = last
  | c :: rest =>
      Change.from_emotion c = first /\
      Change.to_emotion c <> Change.from_emotion c /\
      chained (Change.to_emotion c) rest last
  end.

(** How many predictions carry the label [e]. *)
Definition label_count (e : string) (predictions : list Result.t) : Z :=
  len (labelled e predictions).

(** The sample ranges of the chunks, cut out of their payloads. *)
Definition unpadded (ws : list (Z * Z)) (chunks : list Chunk.t)
  : list (list float) :=
  map (fun wc => firstn (Z.to_nat (snd (fst wc) - fst (fst wc)))
                        (Chunk.audio_data (snd wc)))
      (combine ws chunks).

(** A processor with chunks of minus three seconds. *)
Definition backward_processor : Preprocess.AudioProcessor :=
  {| Preprocess.chunk_duration := (-3)%float;
     Preprocess.sample_rate := 16000 |}.

(** A file system whose every recording decodes to four silent samples at
    16 kHz, and a disk on which every call goes through. *)
Definition short_recording : string -> outcome (list float * Z) :=
  fun _ => Returns (zeros 4, 16000).

Definition plain_disk : Web.UploadIO := {|
  Web.secure_filename := fun name => name;
  Web.path_join := fun folder name => (folder ++ "/" ++ name)%string;
  Web.file_save := fun _ => Returns tt;
  Web.os_remove := fun _ => Returns tt
|}.

(** * Properties *)

Import Preprocess.

(** ** Lists and slices *)

Lemma len_nonneg {A} (l : list A) : 0 <= len l.
Proof. unfold len. lia. Qed.

Lemma len_app {A} (l1 l2 : list A) : len (l1 ++ l2) = len l1 + len l2.
Proof. unfold len. rewrite length_app. lia. Qed.

Lemma len_repeat {A} (x : A) (n : nat) : len (repeat x n) = Z.of_nat n.
Proof. unfold len. now rewrite repeat_length. Qed.

Lemma last_of_map {A B} (f : A -> B) (l : list A) (d : A) :
  last (map f l) (f d) = f (last l d).
Proof.
  induction l as [|x [|y l'] IH]; [reflexivity | reflexivity |].
  change (last (map f (x :: y :: l')) (f d)) with (last (map f (y :: l')) (f d)).
  exact IH.
Qed.

Lemma len_py_slice {A} (l : list A) (s e : Z) :
  0 <= s -> s <= e -> e <= len l -> len (py_slice l s e) = e - s.
Proof.
  intros Hs Hse He. unfold py_slice, slice_index.
  destruct (Z.ltb_spec s 0); [lia|]. destruct (Z.ltb_spec e 0); [lia|].
  rewrite !Z.min_l by lia. unfold len in *.
  rewrite length_firstn, length_skipn. lia.
Qed.

(** The payload of a chunk has [chunk_samples] samples when the window fits
    in the waveform and is no longer than [chunk_samples]. *)
Lemma chunk_of_window_payload cs audio sr s e :
  0 <= s -> s <= e -> e <= len audio -> e - s <= cs ->
  len (Chunk.audio_data (chunk_of_window cs audio sr (s, e))) = cs.
Proof.
  intros Hs Hse He Hcs. unfold chunk_of_window. cbn [Chunk.audio_data].
  rewrite (len_py_slice audio s e) by assumption.
  destruct (Z.ltb_spec (e - s) cs).
  - unfold np_pad_right. rewrite len_app, len_repeat, len_py_slice by assumption.
    lia.
  - rewrite len_py_slice by assumption. lia.
Qed.

(** The payload is the slice of the window, padded on the right with as many
    zeros as the window falls short of [chunk_samples]. *)
Lemma chunk_of_window_padding cs audio sr s e :
  0 <= s -> s <= e -> e <= len audio -> e - s <= cs ->
  Chunk.audio_data (chunk_of_window cs audio sr (s, e)) =
  py_slice audio s e ++ zeros (cs - (e - s)).
Proof.
  intros Hs Hse He Hcs. unfold chunk_of_window. cbn [Chunk.audio_data].
  rewrite (len_py_slice audio s e) by assumption.
  destruct (Z.ltb_spec (e - s) cs); [reflexivity|].
  replace (cs - (e - s)) with 0 by lia. cbn. now rewrite app_nil_r.
Qed.

Lemma Forall2_map_r {A B} (P : A -> B -> Prop) (f : A -> B) (l : list A) :
  (forall x, In x l -> P x (f x)) -> Forall2 P l (map f l).
Proof.
  induction l as [|x l IH]; intros H; cbn [map]; constructor.
  - apply H. now left.
  - apply IH. intros y Hy. apply H. now right.
Qed.

Lemma make_chunk_ok cs audio sr s e :
  sr <> 0 ->
  make_chunk cs audio sr s e = Ok (chunk_of_window cs audio sr (s, e)).
Proof.
  intros Hsr. unfold make_chunk, chunk_of_window, py_truediv.
  destruct (Z.eqb_spec sr 0); [contradiction|]. reflexivity.
Qed.

(** ** Counting windows *)

Lemma window_count_spec cs total k :
  1 <= cs -> 0 <= total -> 0 <= k ->
  (k * cs < total <-> k < window_count cs total).
Proof.
  intros Hcs Ht Hk. unfold window_count.
  pose proof (Z.div_mod (total + cs - 1) cs ltac:(lia)) as Hd.
  pose proof (Z.mod_pos_bound (total + cs - 1) cs ltac:(lia)) as Hm.
  set (n := (total + cs - 1) / cs) in *.
  split; intros H; nia.
Qed.

Lemma window_count_le cs total :
  1 <= cs -> 0 <= total -> window_count cs total <= total.
Proof.
  intros Hcs Ht.
  destruct (Z.le_gt_cases (window_count cs total) total) as [|H]; [assumption|].
  apply (window_count_spec cs total total Hcs Ht Ht) in H. nia.
Qed.

(** ** The loop against its closed form *)

Lemma windows_from_0 cs total : windows_from cs total 0 = windows cs total.
Proof.
  unfold windows_from, windows, py_range. rewrite Z.sub_0_r, map_map.
  reflexivity.
Qed.

Lemma windows_from_done cs total k :
  window_count cs total <= k -> windows_from cs total k = [].
Proof.
  intros H. unfold windows_from.
  replace (Z.to_nat (window_count cs total - k)) with O by lia. reflexivity.
Qed.

Lemma windows_from_step cs total k :
  k < window_count cs total ->
  windows_from cs total k = window cs total k :: windows_from cs total (k + 1).
Proof.
  intros H. unfold windows_from.
  replace (Z.to_nat (window_count cs total - k))
    with (S (Z.to_nat (window_count cs total - (k + 1)))) by lia.
  cbn [seq map]. rewrite Z.add_0_r. f_equal.
  rewrite <- seq_shift, map_map. apply map_ext. intros i. f_equal. lia.
Qed.

Lemma split_loop_closed cs audio sr :
  1 <= cs -> sr <> 0 ->
  forall fuel k acc,
    0 <= k ->
    window_count cs (len audio) - k <= Z.of_nat fuel ->
    split_loop fuel cs audio sr (Z.min (k * cs) (len audio), acc) =
    Ok (acc ++ map (chunk_of_window cs audio sr)
                   (windows_from cs (len audio) k)).
Proof.
  intros Hcs Hsr. pose proof (len_nonneg audio) as Ht.
  induction fuel as [|fuel IH]; intros k acc Hk Hfuel.
  - cbn [split_loop fst snd].
    assert (Hn : window_count cs (len audio) <= k) by lia.
    assert (~ k * cs < len audio)
      by (rewrite (window_count_spec cs (len audio) k) by assumption; lia).
    destruct (Z.ltb_spec (Z.min (k * cs) (len audio)) (len audio)); [lia|].
    rewrite windows_from_done by assumption. cbn. now rewrite app_nil_r.
  - cbn [split_loop fst snd].
    destruct (Z.ltb_spec (Z.min (k * cs) (len audio)) (len audio)) as [Hlt|Hge].
    + assert (Hk' : k * cs < len audio) by lia.
      assert (Hkn : k < window_count cs (len audio))
        by (apply window_count_spec; assumption).
      unfold split_body. rewrite Z.min_l by lia.
      rewrite make_chunk_ok by assumption. cbn [bind].
      replace (k * cs + cs) with ((k + 1) * cs) by ring.
      rewrite IH by lia.
      rewrite (windows_from_step cs (len audio) k) by assumption.
      cbn [map]. rewrite <- app_assoc. cbn [app]. unfold window.
      replace (k * cs + cs) with ((k + 1) * cs) by ring. reflexivity.
    + assert (~ k * cs < len audio) by lia.
      assert (Hn : window_count cs (len audio) <= k).
      { destruct (Z.le_gt_cases (window_count cs (len audio)) k); [assumption|].
        exfalso. apply H. apply window_count_spec; assumption || lia. }
      rewrite windows_from_done by assumption. cbn. now rewrite app_nil_r.
Qed.

Lemma split_loop_windows cs audio sr fuel :
  1 <= cs -> sr <> 0 -> (List.length audio <= fuel)%nat ->
  split_loop fuel cs audio sr (0, []) =
  Ok (map (chunk_of_window cs audio sr) (windows cs (len audio))).
Proof.
  intros Hcs Hsr Hfuel. pose proof (len_nonneg audio) as Ht.
  pose proof (split_loop_closed cs audio sr Hcs Hsr fuel 0 []) as H.
  rewrite Z.mul_0_l, Z.min_l in H by assumption.
  rewrite H, windows_from_0; [reflexivity | lia |].
  pose proof (window_count_le cs (len audio) Hcs Ht). unfold len in *. lia.
Qed.

Lemma windows_In cs total w :
  In w (windows cs total) ->
  exists k, 0 <= k < window_count cs total /\ w = window cs total k.
Proof.
  unfold windows, py_range. rewrite map_map, in_map_iff.
  intros (i & <- & Hi). apply in_seq in Hi. exists (Z.of_nat i). split; [lia|reflexivity].
Qed.

Lemma windows_length cs total :
  List.length (windows cs total) = Z.to_nat (window_count cs total).
Proof. unfold windows, py_range. now rewrite !length_map, length_seq. Qed.

Lemma windows_nth cs total i :
  (i < Z.to_nat (window_count cs total))%nat ->
  nth_error (windows cs total) i = Some (window cs total (Z.of_nat i)).
Proof.
  intros Hi. unfold windows, py_range. rewrite map_map.
  rewrite nth_error_map, nth_error_seq.
  destruct (Nat.ltb_spec i (Z.to_nat (window_count cs total))); [|lia].
  reflexivity.
Qed.

(** A window lies in the waveform, is not empty and is no longer than
    [chunk_samples]. *)
Lemma window_bounds cs total k :
  1 <= cs -> 0 <= total -> 0 <= k < window_count cs total ->
  let '(s, e) := window cs total k in
  0 <= s /\ s < e /\ e <= total /\ e - s <= cs.
Proof.
  intros Hcs Ht [Hk Hkn]. unfold window.
  apply (window_count_spec cs total k Hcs Ht Hk) in Hkn. nia.
Qed.

Lemma payload_windows cs audio sr :
  1 <= cs ->
  Forall (fun c => len (Chunk.audio_data c) = cs)
         (map (chunk_of_window cs audio sr) (windows cs (len audio))).
Proof.
  intros Hcs. apply Forall_forall. intros c Hc.
  apply in_map_iff in Hc. destruct Hc as (w & <- & Hw).
  apply windows_In in Hw. destruct Hw as (k & Hk & ->).
  pose proof (window_bounds cs (len audio) k Hcs (len_nonneg audio) Hk) as Hb.
  unfold window in *. apply chunk_of_window_payload; lia.
Qed.

Lemma padding_windows cs audio sr :
  1 <= cs ->
  Forall2 (fun w c =>
             Chunk.audio_data c =
             py_slice audio (fst w) (snd w) ++ zeros (cs - (snd w - fst w)))
          (windows cs (len audio))
          (map (chunk_of_window cs audio sr) (windows cs (len audio))).
Proof.
  intros Hcs. apply Forall2_map_r. intros w Hw.
  apply windows_In in Hw. destruct Hw as (k & Hk & ->).
  pose proof (window_bounds cs (len audio) k Hcs (len_nonneg audio) Hk) as Hb.
  unfold window in *. cbn [fst snd]. apply chunk_of_window_padding; lia.
Qed.

Lemma tiles_windows_from cs total :
  1 <= cs -> 0 <= total ->
  forall m k, 0 <= k -> m = Z.to_nat (window_count cs total - k) ->
  tiles (windows_from cs total k) (Z.min (k * cs) total) total.
Proof.
  intros Hcs Ht. induction m as [|m IH]; intros k Hk Hm.
  - rewrite windows_from_done by lia. cbn.
    assert (~ k * cs < total)
      by (rewrite (window_count_spec cs total k) by assumption; lia).
    lia.
  - assert (Hkn : k < window_count cs total) by lia.
    rewrite windows_from_step by assumption.
    pose proof (window_bounds cs total k Hcs Ht (conj Hk Hkn)) as Hb.
    unfold window in *. cbn [tiles]. repeat split; try lia.
    replace (k * cs + cs) with ((k + 1) * cs) by ring.
    apply IH; lia.
Qed.

Lemma tiles_windows cs total :
  1 <= cs -> 0 <= total -> tiles (windows cs total) 0 total.
Proof.
  intros Hcs Ht.
  pose proof (tiles_windows_from cs total Hcs Ht _ 0 (Z.le_refl 0) eq_refl) as H.
  rewrite windows_from_0, Z.mul_0_l, Z.min_l in H by assumption. exact H.
Qed.

Lemma tiles_last ws : forall a b d,
  tiles ws a b -> ws <> [] -> snd (last ws d) = b.
Proof.
  induction ws as [|[s e] rest IH]; intros a b d Ht Hne; [congruence|].
  destruct rest as [|w rest'].
  - cbn in *. lia.
  - cbn [tiles] in Ht. destruct Ht as (_ & _ & Ht).
    change (last ((s, e) :: w :: rest') d) with (last (w :: rest') d).
    apply (IH e b d Ht). discriminate.
Qed.

Lemma abutting_tiles cs audio sr ws : forall a b,
  tiles ws a b -> abutting (map (chunk_of_window cs audio sr) ws).
Proof.
  induction ws as [|[s e] rest IH]; intros a b Ht; [exact I|].
  destruct rest as [|[s' e'] rest'].
  - exact I.
  - cbn [tiles] in Ht. destruct Ht as (_ & _ & Ht).
    change (abutting (chunk_of_window cs audio sr (s, e)
                      :: map (chunk_of_window cs audio sr) ((s', e') :: rest'))).
    cbn [abutting map]. split.
    + cbn [tiles] in Ht. destruct Ht as (-> & _). reflexivity.
    + apply (IH e b Ht).
Qed.

(** ** The chunk length comes from a non-zero sample rate *)

Lemma py_int_mul_zero x r :
  py_int (x * 0)%float = Ok r -> r = 0.
Proof.
  unfold py_int. rewrite mul_spec.
  change (Prim2SF 0%float) with (S754_zero false).
  destruct (Prim2SF x) as [s|s| |s m e]; cbn; congruence.
Qed.

Lemma chunk_samples_rate (self : AudioProcessor) sr cs :
  chunk_samples_of self sr = Ok cs -> cs <> 0 -> sr <> 0.
Proof.
  intros H Hcs ->. unfold chunk_samples_of in H.
  change (py_float_of_int 0) with (Ok 0%float) in H. cbn [bind] in H.
  apply py_int_mul_zero in H. contradiction.
Qed.

(** With no samples per chunk the loop runs for ever. *)
Lemma split_loop_stuck audio sr :
  audio <> [] -> sr <> 0 ->
  forall fuel acc, split_loop fuel 0 audio sr (0, acc) = OutOfFuel.
Proof.
  intros Hne Hsr.
  assert (Hlen : 0 < len audio) by (destruct audio; [congruence | cbn; lia]).
  induction fuel as [|fuel IH]; intros acc; cbn [split_loop fst snd];
    destruct (Z.ltb_spec 0 (len audio)); try lia; [reflexivity|].
  unfold split_body. rewrite make_chunk_ok by assumption. cbn [bind].
  rewrite Z.add_0_l, Z.min_l by lia. apply IH.
Qed.

Lemma body_iter_stuck audio sr :
  audio <> [] -> sr <> 0 ->
  forall n acc, exists chunks,
    body_iter n 0 audio sr (0, acc) = Ok (0, chunks) /\
    List.length chunks = (List.length acc + n)%nat.
Proof.
  intros Hne Hsr.
  assert (Hlen : 0 < len audio) by (destruct audio; [congruence | cbn; lia]).
  induction n as [|n IH]; intros acc.
  - exists acc. split; [reflexivity | lia].
  - cbn [body_iter]. unfold split_body.
    rewrite make_chunk_ok by assumption. cbn [bind].
    rewrite Z.add_0_l, Z.min_l by lia.
    destruct (IH (acc ++ [chunk_of_window 0 audio sr (0, 0)])) as (chunks & -> & Hl).
    exists chunks. split; [reflexivity|]. rewrite Hl, length_app. cbn. lia.
Qed.

(** ** Segmentation *)

(** C10, as the code has it: with at least one sample per chunk the
    splitting loop returns, within as many iterations as the waveform has
    samples, and every payload has exactly [chunk_samples] samples: the
    samples of its window, then zeros.  With [chunk_samples = 0] and a
    non-empty waveform the outcome depends on the sample rate: when it is not
    0, the position stays at 0 after any number of iterations and the loop
    never returns; when it is 0, which makes [chunk_samples] 0 whatever the
    chunk duration, the first iteration divides by it and the splitting ends
    with ZeroDivisionError. *)
Theorem C10_split_terminates_iff_chunk_samples_positive
    (self : AudioProcessor) (audio : list float) (sr cs : Z) :
  chunk_samples_of self sr = Ok cs ->
  (1 <= cs ->
   exists chunks,
     (forall fuel, (List.length audio <= fuel)%nat ->
        _split_into_chunks fuel self audio sr = Ok chunks) /\
     Forall (fun c => len (Chunk.audio_data c) = cs) chunks /\
     Forall2 (fun w c =>
                Chunk.audio_data c =
                py_slice audio (fst w) (snd w)
                ++ zeros (cs - (snd w - fst w)))
             (windows cs (len audio)) chunks)
  /\
  (cs = 0 -> audio <> [] -> sr <> 0 ->
   (forall fuel, _split_into_chunks fuel self audio sr = OutOfFuel) /\
   (forall n, exists chunks,
      body_iter n cs audio sr (0, []) = Ok (0, chunks) /\
      List.length chunks = n))
  /\
  (sr = 0 -> audio <> [] ->
   cs = 0 /\
   forall fuel,
     _split_into_chunks (S fuel) self audio sr = Raise ZeroDivisionError).
Proof.
  intros Hcs. split; [|split].
  - intros Hpos.
    assert (Hsr : sr <> 0) by (apply (chunk_samples_rate self sr cs Hcs); lia).
    exists (map (chunk_of_window cs audio sr) (windows cs (len audio))). split.
    + intros fuel Hfuel. unfold _split_into_chunks. rewrite Hcs. cbn [bind].
      now apply split_loop_windows.
    + split; [now apply payload_windows | now apply padding_windows].
  - intros -> Hne Hsr. split.
    + intros fuel. unfold _split_into_chunks. rewrite Hcs. cbn [bind].
      now apply split_loop_stuck.
    + intros n. destruct (body_iter_stuck audio sr Hne Hsr n []) as (chunks & H & Hl).
      exists chunks. split; [exact H | exact Hl].
  - intros -> Hne.
    assert (Hzero : cs = 0).
    { destruct (Z.eq_dec cs 0) as [|Hnz]; [assumption|].
      now destruct (chunk_samples_rate self 0 cs Hcs Hnz). }
    split; [exact Hzero|]. subst cs. intros fuel.
    assert (Hlen : 0 < len audio) by (destruct audio; [congruence | cbn; lia]).
    unfold _split_into_chunks. rewrite Hcs. cbn [bind split_loop fst snd].
    destruct (Z.ltb_spec 0 (len audio)); [reflexivity | lia].
Qed.

Lemma C10_witness :
  (exists chunks,
     (forall fuel, (List.length (zeros 3) <= fuel)%nat ->
        _split_into_chunks fuel default_processor (zeros 3) 16000 = Ok chunks) /\
     Forall (fun c => len (Chunk.audio_data c) = 48000) chunks /\
     Forall2 (fun w c =>
                Chunk.audio_data c =
                py_slice (zeros 3) (fst w) (snd w)
                ++ zeros (48000 - (snd w - fst w)))
             (windows 48000 (len (zeros 3))) chunks)
  /\
  ((forall fuel,
      _split_into_chunks fuel short_processor (zeros 3) 16000 = OutOfFuel) /\
   (forall n, exists chunks,
      body_iter n 0 (zeros 3) 16000 (0, []) = Ok (0, chunks) /\
      List.length chunks = n))
  /\
  (0 = 0 /\
   forall fuel,
     _split_into_chunks (S fuel) default_processor (zeros 3) 0
       = Raise ZeroDivisionError).
Proof.
  split; [|split].
  - apply (proj1 (C10_split_terminates_iff_chunk_samples_positive
                    default_processor (zeros 3) 16000 48000
                    ltac:(vm_compute; reflexivity))).
    lia.
  - apply (proj1 (proj2 (C10_split_terminates_iff_chunk_samples_positive
                           short_processor (zeros 3) 16000 0
                           ltac:(vm_compute; reflexivity))));
      [reflexivity | discriminate | lia].
  - apply (proj2 (proj2 (C10_split_terminates_iff_chunk_samples_positive
                           default_processor (zeros 3) 0 0
                           ltac:(vm_compute; reflexivity))));
      [reflexivity | discriminate].
Defined.

(** Against C10 as stated: at the sample rate 0 the default chunk duration
    gives [chunk_samples = 0], the waveform of three samples is not empty,
    and the splitting does terminate, with ZeroDivisionError in its first
    iteration, however many iterations it is allowed. *)
Lemma C10_counterexample :
  chunk_samples_of default_processor 0 = Ok 0 /\
  zeros 3 <> [] /\
  _split_into_chunks 1 default_processor (zeros 3) 0
    = Raise ZeroDivisionError /\
  _split_into_chunks 1000 default_processor (zeros 3) 0
    = Raise ZeroDivisionError.
Proof.
  split; [vm_compute; reflexivity|].
  split; [discriminate|].
  split; vm_compute; reflexivity.
Qed.

(** C3, as the code has it: the chunk at position [i] reports the window
    [i * chunk_samples, i * chunk_samples + chunk_samples) unless it is the
    last one, which reports the window up to the last sample of the waveform
    (not empty, at most [chunk_samples] long); start, end and duration are
    measured on that window, in seconds rounded to two decimals, and only the
    payload is padded to [chunk_samples] samples. *)
Theorem C3_duration_measured_on_window
    (self : AudioProcessor) (audio : list float) (sr cs : Z) :
  chunk_samples_of self sr = Ok cs -> 1 <= cs -> audio <> [] ->
  exists chunks,
    _split_into_chunks (List.length audio) self audio sr = Ok chunks /\
    chunks <> [] /\
    forall i c, nth_error chunks i = Some c ->
      let s := Z.of_nat i * cs in
      let e := if (S i <? List.length chunks)%nat then s + cs else len audio in
      s < e <= s + cs /\
      Chunk.start_time c = py_round (truediv_float s sr) 2 /\
      Chunk.end_time c = py_round (truediv_float e sr) 2 /\
      Chunk.duration c =
        py_round (truediv_float e sr - truediv_float s sr)%float 2 /\
      len (Chunk.audio_data c) = cs.
Proof.
  intros Hcs Hpos Hne.
  assert (Hsr : sr <> 0) by (apply (chunk_samples_rate self sr cs Hcs); lia).
  pose proof (len_nonneg audio) as Ht.
  assert (Hlen : 0 < len audio) by (destruct audio; [congruence | cbn; lia]).
  assert (Hn : 0 < window_count cs (len audio)).
  { apply (window_count_spec cs (len audio) 0); lia. }
  exists (map (chunk_of_window cs audio sr) (windows cs (len audio))).
  split; [|split].
  - unfold _split_into_chunks. rewrite Hcs. cbn [bind].
    now apply split_loop_windows.
  - intros H. apply (f_equal (@List.length _)) in H.
    rewrite length_map, windows_length in H. cbn in H. lia.
  - intros i c Hi. rewrite length_map, windows_length.
    rewrite nth_error_map in Hi.
    destruct (nth_error (windows cs (len audio)) i) as [w|] eqn:Hw;
      [|discriminate].
    assert (Hin : (i < Z.to_nat (window_count cs (len audio)))%nat).
    { rewrite <- windows_length. apply nth_error_Some. congruence. }
    rewrite windows_nth in Hw by assumption.
    injection Hw as <-. injection Hi as <-.
    pose proof (window_bounds cs (len audio) (Z.of_nat i) Hpos Ht
                  ltac:(lia)) as Hb.
    assert (He : Z.min (Z.of_nat i * cs + cs) (len audio) =
                 if (S i <? Z.to_nat (window_count cs (len audio)))%nat
                 then Z.of_nat i * cs + cs else len audio).
    { destruct (Nat.ltb_spec (S i) (Z.to_nat (window_count cs (len audio))))
        as [Hl|Hl].
      - assert ((Z.of_nat i + 1) * cs < len audio)
          by (apply window_count_spec; lia).
        lia.
      - assert (~ (Z.of_nat i + 1) * cs < len audio)
          by (rewrite window_count_spec by lia; lia).
        lia. }
    cbv zeta. rewrite <- He. unfold window in *.
    split; [lia|]. repeat split.
    apply chunk_of_window_payload; lia.
Qed.

Lemma C3_witness :
  exists chunks,
    _split_into_chunks (List.length (zeros 3)) default_processor (zeros 3) 16000
      = Ok chunks /\
    chunks <> [] /\
    forall i c, nth_error chunks i = Some c ->
      let s := Z.of_nat i * 48000 in
      let e := if (S i <? List.length chunks)%nat
               then s + 48000 else len (zeros 3) in
      s < e <= s + 48000 /\
      Chunk.start_time c = py_round (truediv_float s 16000) 2 /\
      Chunk.end_time c = py_round (truediv_float e 16000) 2 /\
      Chunk.duration c =
        py_round (truediv_float e 16000 - truediv_float s 16000)%float 2 /\
      len (Chunk.audio_data c) = 48000.
Proof.
  apply (C3_duration_measured_on_window default_processor (zeros 3) 16000 48000).
  - vm_compute; reflexivity.
  - lia.
  - discriminate.
Defined.

(** C3 fails on one second of audio with the default three-second chunks:
    the only chunk reports 0.0 to 1.0 and duration 1.0. *)
Lemma C3_counterexample :
  exists c,
    _split_into_chunks 1 default_processor (zeros 16000) 16000 = Ok [c] /\
    Chunk.start_time c = 0%float /\
    Chunk.end_time c = 1%float /\
    Chunk.duration c = 1%float /\
    chunk_duration default_processor = 3%float /\
    ((Chunk.end_time c - Chunk.start_time c =? chunk_duration default_processor)
     = false)%float.
Proof.
  exists (chunk_of_window 48000 (zeros 16000) 16000 (0, 16000)).
  repeat split; vm_compute; reflexivity.
Qed.

(** C7, as the code has it: [chunk_samples] is
    [int(chunk_duration * sample_rate)]; the chunks are those of the windows
    [k * chunk_samples, min (k * chunk_samples + chunk_samples) total), which
    follow one another from sample 0 to the last sample with no gap and no
    overlap; each reported end equals the next reported start, the first
    reported start is 0 and the last reported end is the duration of the
    waveform rounded to two decimals. *)
Theorem C7_windows_tile_the_waveform
    (self : AudioProcessor) (audio : list float) (sr cs : Z) :
  chunk_samples_of self sr = Ok cs -> 1 <= cs -> audio <> [] ->
  let ws := windows cs (len audio) in
  let chunks := map (chunk_of_window cs audio sr) ws in
  _split_into_chunks (List.length audio) self audio sr = Ok chunks /\
  tiles ws 0 (len audio) /\
  abutting chunks /\
  exists c rest,
    chunks = c :: rest /\
    (0 < sr -> Chunk.start_time c = 0%float) /\
    Chunk.end_time (last chunks c) =
      py_round (truediv_float (len audio) sr) 2.
Proof.
  intros Hcs Hpos Hne ws chunks.
  assert (Hsr : sr <> 0) by (apply (chunk_samples_rate self sr cs Hcs); lia).
  pose proof (len_nonneg audio) as Ht.
  assert (Hlen : 0 < len audio) by (destruct audio; [congruence | cbn; lia]).
  assert (Htiles : tiles ws 0 (len audio)) by now apply tiles_windows.
  split; [|split; [exact Htiles|split]].
  - unfold _split_into_chunks. rewrite Hcs. cbn [bind].
    now apply split_loop_windows.
  - exact (abutting_tiles cs audio sr ws 0 (len audio) Htiles).
  - subst chunks. destruct ws as [|[s e] rest] eqn:Hws.
    + cbn in Htiles. lia.
    + exists (chunk_of_window cs audio sr (s, e)),
             (map (chunk_of_window cs audio sr) rest).
      split; [reflexivity|split].
      * intros Hsrpos. cbn [tiles] in Htiles. destruct Htiles as (-> & _).
        destruct sr as [|p|p]; try lia. reflexivity.
      * change (chunk_of_window cs audio sr (s, e)
                :: map (chunk_of_window cs audio sr) rest)
          with (map (chunk_of_window cs audio sr) ((s, e) :: rest)).
        rewrite last_of_map.
        pose proof (tiles_last ((s, e) :: rest) 0 (len audio) (s, e) Htiles
                      ltac:(discriminate)) as Hl.
        destruct (last ((s, e) :: rest) (s, e)) as [s' e']. cbn in Hl.
        subst e'. reflexivity.
Qed.

Lemma C7_witness :
  let ws := windows 48000 (len (zeros 3)) in
  let chunks := map (chunk_of_window 48000 (zeros 3) 16000) ws in
  _split_into_chunks (List.length (zeros 3)) default_processor (zeros 3) 16000
    = Ok chunks /\
  tiles ws 0 (len (zeros 3)) /\
  abutting chunks /\
  exists c rest,
    chunks = c :: rest /\
    (0 < 16000 -> Chunk.start_time c = 0%float) /\
    Chunk.end_time (last chunks c) =
      py_round (truediv_float (len (zeros 3)) 16000) 2.
Proof.
  apply (C7_windows_tile_the_waveform default_processor (zeros 3) 16000 48000).
  - vm_compute; reflexivity.
  - lia.
  - discriminate.
Defined.

(** C7 fails twice: a chunk of 1.6 samples is cut at 1 sample where rounding
    gives 2; and 16100 samples at 16 kHz last 1.00625 s while the chunk
    reports its end at 1.01 s. *)
Lemma C7_counterexample :
  (chunk_samples_of fractional_processor 16000 = Ok 1 /\
   py_round_int (0.0001 * 16000)%float = Ok 2)
  /\
  (reported (_split_into_chunks 1 default_processor (zeros 16100) 16000)
     = Ok [(0, 1.01, 1.01)]%float /\
   (truediv_float 16100 16000 <? 1.01)%float = true).
Proof. repeat split; vm_compute; reflexivity. Qed.

(** ** A recording with no samples *)

(** C2, as the code has it: a waveform with no samples is segmented into no
    chunks and nothing is raised; when the decoder returns such a waveform at
    the target rate the analysis answers with no results, no change events
    and the statistics of an empty sequence. *)
Theorem C2_empty_waveform_gives_no_chunks_and_no_error
    {lib : AudioLib} (fuel : nat) (audio_processor : AudioProcessor)
    (emotion_detector : Model.EmotionDetector) (filepath : string) (cs : Z) :
  chunk_samples_of audio_processor (sample_rate audio_processor) = Ok cs ->
  librosa_load filepath = Returns ([], sample_rate audio_processor) ->
  _split_into_chunks fuel audio_processor [] (sample_rate audio_processor)
    = Ok [] /\
  process_audio fuel audio_processor filepath = Ok [] /\
  App.analyze_audio fuel audio_processor emotion_detector filepath =
    Ok (App.Success [] [] (Statistics.mk 0%float [] [] [] "Unknown")).
Proof.
  intros Hcs Hload.
  assert (Hsplit : _split_into_chunks fuel audio_processor []
                     (sample_rate audio_processor) = Ok []).
  { unfold _split_into_chunks. rewrite Hcs. cbn [bind].
    destruct fuel; reflexivity. }
  assert (Hproc : process_audio fuel audio_processor filepath = Ok []).
  { unfold process_audio, _load_audio. rewrite Hload. cbn [call try_except bind].
    rewrite Z.eqb_refl. cbn [negb bind]. exact Hsplit. }
  split; [exact Hsplit | split; [exact Hproc|]].
  unfold App.analyze_audio. rewrite Hproc. reflexivity.
Qed.

Lemma C2_witness :
  _split_into_chunks 0 default_processor [] (sample_rate default_processor)
    = Ok [] /\
  @process_audio (Reference.lib empty_recording) 0 default_processor
     "empty.wav" = Ok [] /\
  @App.analyze_audio (Reference.lib empty_recording) 0 default_processor
     (Model.__init__ (Raises LibraryError)) "empty.wav" =
    Ok (App.Success [] [] (Statistics.mk 0%float [] [] [] "Unknown")).
Proof.
  apply (@C2_empty_waveform_gives_no_chunks_and_no_error
           (Reference.lib empty_recording) 0 default_processor
           (Model.__init__ (Raises LibraryError)) "empty.wav" 48000).
  - vm_compute; reflexivity.
  - reflexivity.
Defined.

(** C2 fails on the default configuration: the empty waveform is segmented
    without an error and the analysis answers successfully. *)
Lemma C2_counterexample :
  _split_into_chunks 0 default_processor [] 16000 = Ok [] /\
  @App.analyze_audio (Reference.lib empty_recording) 0 default_processor
     (Model.__init__ (Raises LibraryError)) "empty.wav" =
    Ok (App.Success [] [] (Statistics.mk 0%float [] [] [] "Unknown")).
Proof. split; vm_compute; reflexivity. Qed.

(** ** Comparing floats *)

Lemma key_lt_trans a b c : key_lt a b -> key_lt b c -> key_lt a c.
Proof.
  destruct a as [[a1 a2] a3], b as [[b1 b2] b3], c as [[c1 c2] c3].
  unfold key_lt. lia.
Qed.

Lemma key_le_lt_trans a b c : key_le a b -> key_lt b c -> key_lt a c.
Proof. intros [H| ->] H'; [eapply key_lt_trans; eassumption | assumption]. Qed.

Lemma key_total a b : key_lt a b \/ key_le b a.
Proof.
  destruct a as [[a1 a2] a3], b as [[b1 b2] b3]. unfold key_le, key_lt.
  destruct (Z.lt_trichotomy a1 b1) as [|[|]];
    destruct (Z.lt_trichotomy a2 b2) as [|[|]];
    destruct (Z.lt_trichotomy a3 b3) as [|[|]];
    try (left; lia); try (right; left; lia).
  right; right. congruence.
Qed.

Lemma key_lt_irrefl a b : key_lt a b -> key_le b a -> False.
Proof.
  destruct a as [[a1 a2] a3], b as [[b1 b2] b3]. unfold key_le, key_lt.
  intros H [H'|H']; [lia | injection H' as -> -> ->; lia].
Qed.

Lemma SFkey_inj_eq x y :
  x <> S754_nan -> y <> S754_nan ->
  SFkey x = SFkey y -> SFcompare x y = Some Eq.
Proof.
  destruct x as [[]|[]| |[] mx ex], y as [[]|[]| |[] my ey];
    cbn; intros Hx Hy H; try congruence; try discriminate.
  - injection H as He Hm. assert (ex = ey) by lia. subst.
    rewrite Z.compare_refl.
    change (Pos.compare_cont Eq my my) with (Pos.compare my my).
    now rewrite Pos.compare_refl.
  - injection H as -> ->. rewrite Z.compare_refl.
    change (Pos.compare_cont Eq my my) with (Pos.compare my my).
    now rewrite Pos.compare_refl.
Qed.

Lemma SFcompare_key_lt x y :
  x <> S754_nan -> y <> S754_nan ->
  (SFcompare x y = Some Lt <-> key_lt (SFkey x) (SFkey y)).
Proof.
  destruct x as [[]|[]| |[] mx ex], y as [[]|[]| |[] my ey];
    cbn; intros Hx Hy; try congruence;
    try (split; [intros; lia | reflexivity]);
    try (split; [discriminate | intros; lia]).
  - change (Pos.compare_cont Eq mx my) with (Pos.compare mx my).
    destruct (Z.compare_spec ex ey); [destruct (Pos.compare_spec mx my)| |];
      cbn; (split; [try discriminate; intros; lia | intros; try reflexivity; lia]).
  - change (Pos.compare_cont Eq mx my) with (Pos.compare mx my).
    destruct (Z.compare_spec ex ey); [destruct (Pos.compare_spec mx my)| |];
      cbn; (split; [try discriminate; intros; lia | intros; try reflexivity; lia]).
Qed.

Lemma SFcompare_number x y c :
  SFcompare x y = Some c -> x <> S754_nan /\ y <> S754_nan.
Proof.
  destruct x as [[]|[]| |[] mx ex], y as [[]|[]| |[] my ey];
    cbn; intros H; try discriminate; split; discriminate.
Qed.

Lemma SFcompare_key_eq x y :
  SFcompare x y = Some Eq -> SFkey x = SFkey y.
Proof.
  destruct x as [[]|[]| |[] mx ex], y as [[]|[]| |[] my ey];
    cbn; intros H; try discriminate; try reflexivity.
  - change (Pos.compare_cont Eq mx my) with (Pos.compare mx my) in H.
    destruct (Z.compare_spec ex ey); [destruct (Pos.compare_spec mx my)| |];
      cbn in H; try discriminate. now subst.
  - change (Pos.compare_cont Eq mx my) with (Pos.compare mx my) in H.
    destruct (Z.compare_spec ex ey); [destruct (Pos.compare_spec mx my)| |];
      cbn in H; try discriminate. now subst.
Qed.

Lemma number_spec x : number x <-> Prim2SF x <> S754_nan.
Proof.
  unfold number, is_nan. rewrite eqb_spec. unfold SFeqb. split.
  - intros H Hn. rewrite Hn in H. discriminate.
  - intros Hn. now rewrite (SFkey_inj_eq _ _ Hn Hn eq_refl).
Qed.

Lemma ltb_key x y :
  (x <? y)%float = true <->
  number x /\ number y /\ key_lt (float_key x) (float_key y).
Proof.
  rewrite ltb_spec, !number_spec. unfold SFltb, float_key. split.
  - destruct (SFcompare (Prim2SF x) (Prim2SF y)) as [[]|] eqn:Hc;
      try discriminate. intros _.
    destruct (SFcompare_number _ _ _ Hc) as [Hx Hy].
    repeat split; try assumption. now apply SFcompare_key_lt.
  - intros (Hx & Hy & Hk). apply (SFcompare_key_lt _ _ Hx Hy) in Hk.
    now rewrite Hk.
Qed.

Lemma leb_key x y :
  (x <=? y)%float = true <->
  number x /\ number y /\ key_le (float_key x) (float_key y).
Proof.
  rewrite leb_spec, !number_spec. unfold SFleb, float_key, key_le. split.
  - destruct (SFcompare (Prim2SF x) (Prim2SF y)) as [[]|] eqn:Hc;
      try discriminate; intros _;
      destruct (SFcompare_number _ _ _ Hc) as [Hx Hy];
      repeat split; try assumption.
    + right. now apply SFcompare_key_eq.
    + left. now apply SFcompare_key_lt.
  - intros (Hx & Hy & [Hk|Hk]).
    + apply (SFcompare_key_lt _ _ Hx Hy) in Hk. now rewrite Hk.
    + apply (SFkey_inj_eq _ _ Hx Hy) in Hk. now rewrite Hk.
Qed.

Lemma ltb_number x y : (x <? y)%float = true -> number x /\ number y.
Proof. rewrite ltb_key. tauto. Qed.


Lemma leb_refl x : number x -> (x <=? x)%float = true.
Proof. intros H. apply leb_key. repeat split; try assumption. now right. Qed.

Lemma ltb_leb x y : (x <? y)%float = true -> (x <=? y)%float = true.
Proof. rewrite ltb_key, leb_key. unfold key_le. tauto. Qed.

Lemma leb_ltb_trans x y z :
  (x <=? y)%float = true -> (y <? z)%float = true -> (x <? z)%float = true.
Proof.
  rewrite leb_key, !ltb_key. intros (Hx & Hy & Hxy) (_ & Hz & Hyz).
  repeat split; try assumption. eapply key_le_lt_trans; eassumption.
Qed.

Lemma ltb_trans x y z :
  (x <? y)%float = true -> (y <? z)%float = true -> (x <? z)%float = true.
Proof. intros H. apply leb_ltb_trans. now apply ltb_leb. Qed.

(** On numbers the order is total. *)
Lemma not_ltb_leb x y :
  number x -> number y -> (x <? y)%float = false -> (y <=? x)%float = true.
Proof.
  intros Hx Hy H. apply leb_key. repeat split; try assumption.
  destruct (key_total (float_key x) (float_key y)) as [Hk|Hk]; [|assumption].
  assert ((x <? y)%float = true) by (apply ltb_key; tauto). congruence.
Qed.

Lemma not_leb_ltb x y :
  number x -> number y -> (x <=? y)%float = false -> (y <? x)%float = true.
Proof.
  intros Hx Hy H. apply ltb_key. repeat split; try assumption.
  destruct (key_total (float_key y) (float_key x)) as [Hk|Hk]; [assumption|].
  assert ((x <=? y)%float = true) by (apply leb_key; tauto). congruence.
Qed.

Lemma ltb_not_leb x y :
  (x <? y)%float = true -> (y <=? x)%float = false.
Proof.
  intros H. destruct (y <=? x)%float eqn:Hle; [|reflexivity].
  apply ltb_key in H. apply leb_key in Hle.
  destruct H as (_ & _ & H), Hle as (_ & _ & Hle).
  destruct (key_lt_irrefl _ _ H Hle).
Qed.

(** ** Checking a prediction by computation *)

Lemma first_argmaxb_sound k : forall d before,
  first_argmaxb before d k = true ->
  exists b v a,
    before ++ d = b ++ (k, v) :: a /\
    Forall (fun kv => (snd kv <? v)%float = true) b /\
    Forall (fun kv => (snd kv <=? v)%float = true) a.
Proof.
  induction d as [|[k' v] after IH]; intros before H; [discriminate|].
  cbn [first_argmaxb] in H. destruct (String.eqb_spec k' k) as [->|Hne].
  - apply andb_prop in H. destruct H as [Hb Ha].
    exists before, v, after. repeat split.
    + apply Forall_forall. intros x Hx.
      exact (proj1 (forallb_forall _ _) Hb x Hx).
    + apply Forall_forall. intros x Hx.
      exact (proj1 (forallb_forall _ _) Ha x Hx).
  - destruct (IH _ H) as (b & v' & a & Heq & Hb & Ha).
    exists b, v', a. rewrite <- app_assoc in Heq. now repeat split.
Qed.

Lemma coherentb_sound emotions p :
  coherentb emotions p = true -> coherent emotions p.
Proof.
  unfold coherentb, coherent. intros H.
  apply andb_prop in H. destruct H as [H Hmax].
  apply andb_prop in H. destruct H as [Hkeys Hconf].
  split; [|split].
  - destruct (list_eq_dec string_dec (keys (Prediction.scores p)) emotions);
      [assumption | discriminate].
  - destruct (dict_get (Prediction.scores p) (Prediction.emotion p)) as [v|];
      [|discriminate].
    exists v. split; [reflexivity|]. now apply FloatAxioms.Leibniz.eqb_spec.
  - destruct (first_argmaxb_sound _ _ _ Hmax) as (b & v & a & Heq & Hb & Ha).
    exists b, v, a. now repeat split.
Qed.

Lemma is_distributionb_sound d :
  is_distributionb d = true -> is_distribution d.
Proof.
  unfold is_distributionb, is_distribution. intros H.
  apply andb_prop in H. destruct H as [Hpos Hsum]. split.
  - apply Forall_forall. intros x Hx.
    exact (proj1 (forallb_forall _ _) Hpos x Hx).
  - destruct (exact_sum (values d)) as [q|]; [|discriminate].
    exists q. split; [reflexivity|]. now apply Qle_bool_imp_le.
Qed.

(** The cascade has six outcomes; each is run and checked. *)
Ltac run_to_value :=
  match goal with
  | |- exists p, ?r = Ok p /\ _ =>
      let v := eval vm_compute in r in
      match v with
      | Ok ?p0 => exists p0; split; [vm_compute; reflexivity|]
      end
  end.

Ltac cascade e z pm ps :=
  unfold Model.classify_features, Model.rule_scores;
  cbn [Features.energy Features.zero_crossing_rate Features.pitch_mean
       Features.pitch_std];
  destruct (0.5 <? e)%float eqn:Hhigh;
    [ destruct (50 <? ps)%float eqn:Hvaried
    | destruct (e <? 0.2)%float eqn:Hlow;
      [ destruct (pm <? 150)%float eqn:Hpitch
      | destruct (0.1 <? z)%float eqn:Hnoisy ] ].

Lemma classify_features_checked (self : Model.EmotionDetector) features :
  Model.emotions self = Model.fallback_emotions \/
  Model.emotions self = Model.model_emotions ->
  exists p,
    Model.classify_features self features = Ok p /\
    coherentb (Model.emotions self) p = true /\
    is_distributionb (Prediction.scores p) = true.
Proof.
  destruct features as [e z pm ps]. intros [H|H]; rewrite H;
    unfold Model.classify_features; rewrite H;
    cascade e z pm ps; run_to_value; split; vm_compute; reflexivity.
Qed.

(** ** The rule-based classifier *)

Lemma eqb_not_ltb x y : (x =? y)%float = true -> (y <? x)%float = false.
Proof.
  intros H. destruct (y <? x)%float eqn:Hlt; [|reflexivity].
  apply ltb_key in Hlt. destruct Hlt as (_ & _ & Hlt).
  rewrite eqb_spec in H. unfold SFeqb in H.
  destruct (SFcompare (Prim2SF x) (Prim2SF y)) as [[]|] eqn:Hc;
    try discriminate.
  apply SFcompare_key_eq in Hc.
  destruct (key_lt_irrefl _ _ Hlt). right. exact Hc.
Qed.

(** C6: whatever the features, the rule-based classifier returns scores that
    are not negative and whose exact sum is within 1e-6 of 1; and when the
    scores sum to 0 before the normalisation, the guard sets [neutral] to
    1.0. *)
Theorem C6_rule_scores_are_a_distribution
    (self : Model.EmotionDetector) (features : Features.t) :
  Model.emotions self = Model.fallback_emotions \/
  Model.emotions self = Model.model_emotions ->
  (exists p,
     Model.classify_features self features = Ok p /\
     is_distribution (Prediction.scores p))
  /\
  (forall scores,
     (py_sum (values scores) =? 0)%float = true ->
     Model.normalize_scores scores = dict_set scores "neutral" 1.0%float).
Proof.
  intros Hlabels. split.
  - destruct (classify_features_checked self features Hlabels)
      as (p & Hp & _ & Hd).
    exists p. split; [exact Hp | now apply is_distributionb_sound].
  - intros scores Hsum. unfold Model.normalize_scores.
    now rewrite (eqb_not_ltb _ _ Hsum).
Qed.

Lemma C6_witness :
  (exists p,
     Model.classify_features fallback_detector loud_varied = Ok p /\
     is_distribution (Prediction.scores p))
  /\
  Model.normalize_scores (Model.initial_scores Model.fallback_emotions) =
    dict_set (Model.initial_scores Model.fallback_emotions) "neutral" 1.0%float.
Proof.
  pose proof (C6_rule_scores_are_a_distribution fallback_detector loud_varied
                (or_introl eq_refl)) as [H1 H2].
  split; [exact H1|]. apply H2. vm_compute; reflexivity.
Defined.

(** ** Silence *)

Lemma py_index_cases {A} (l : list A) i :
  py_index l i = Raise IndexError \/ exists a, py_index l i = Ok a /\ In a l.
Proof.
  unfold py_index. destruct (i <? 0); [now left|].
  destruct (nth_error l (Z.to_nat i)) as [a|] eqn:H; [|now left].
  right. exists a. split; [reflexivity|]. eapply nth_error_In; eassumption.
Qed.

Lemma column_cases (m : list (list float)) t :
  (exists col, Model.column m t = Ok col) \/
  (exists e, Model.column m t = Raise e).
Proof.
  unfold Model.column. induction m as [|row m IH]; cbn [mapM].
  - left. now eexists.
  - destruct (py_index_cases row t) as [->|(a & -> & _)]; cbn [bind].
    + right. now eexists.
    + destruct IH as [(col & ->)|(e & ->)]; cbn [bind];
        [left | right]; now eexists.
Qed.

Lemma np_argmax_cases l :
  (exists i, np_argmax l = Ok i) \/ np_argmax l = Raise ValueError.
Proof. destruct l; cbn; [now right | left; now eexists]. Qed.










(** ** numpy's argmax and Python's max on numbers *)

Lemma argmax_scan_first : forall xs before mp mid,
  Forall number xs -> number mp ->
  Forall (fun a => (a <? mp)%float = true) before ->
  Forall (fun a => (a <=? mp)%float = true) mid ->
  exists before' v after',
    before ++ mp :: mid ++ xs = before' ++ v :: after' /\
    argmax_scan xs (len before + 1 + len mid) mp (len before) = len before' /\
    Forall (fun a => (a <? v)%float = true) before' /\
    Forall (fun a => (a <=? v)%float = true) after'.
Proof.
  induction xs as [|x xs IH]; intros before mp mid Hxs Hmp Hb Hm.
  - exists before, mp, mid. rewrite app_nil_r. now repeat split.
  - inversion Hxs as [|? ? Hx Hxs']; subst. cbn [argmax_scan].
    destruct (x <=? mp)%float eqn:Hle; cbn [negb].
    + destruct (IH before mp (mid ++ [x]) Hxs' Hmp Hb) as (b & v & a & He & Hi & H1 & H2).
      { apply Forall_app. split; [assumption | now constructor]. }
      exists b, v, a. repeat split; try assumption.
      * rewrite <- He, <- app_assoc. reflexivity.
      * rewrite <- Hi. f_equal. rewrite len_app. unfold len. cbn [List.length]. lia.
    + pose proof (not_leb_ltb _ _ Hx Hmp Hle) as Hlt.
      unfold number in Hx. rewrite Hx. fold (number x) in Hx.
      destruct (IH (before ++ mp :: mid) x [] Hxs' Hx) as (b & v & a & He & Hi & H1 & H2).
      { apply Forall_app. split.
        - eapply Forall_impl; [|exact Hb]. cbv beta. intros a Ha.
          eapply ltb_trans; eassumption.
        - constructor; [assumption|].
          eapply Forall_impl; [|exact Hm]. cbv beta. intros a Ha.
          eapply leb_ltb_trans; eassumption. }
      { constructor. }
      exists b, v, a. repeat split; try assumption.
      * rewrite <- He, <- app_assoc. reflexivity.
      * rewrite <- Hi. f_equal; rewrite len_app; unfold len; cbn [List.length]; lia.
Qed.

Lemma np_argmax_first probabilities :
  probabilities <> [] -> Forall number probabilities ->
  exists before v after,
    probabilities = before ++ v :: after /\
    np_argmax probabilities = Ok (len before) /\
    Forall (fun a => (a <? v)%float = true) before /\
    Forall (fun a => (a <=? v)%float = true) after.
Proof.
  destruct probabilities as [|x xs]; [congruence|]. intros _ H.
  inversion H as [|? ? Hx Hxs]; subst.
  destruct (argmax_scan_first xs [] x [] Hxs Hx (Forall_nil _) (Forall_nil _))
    as (b & v & a & He & Hi & H1 & H2).
  exists b, v, a. cbn [np_argmax]. unfold number in Hx. rewrite Hx.
  cbn in He, Hi.
  rewrite Hi. now repeat split.
Qed.

Lemma max_scan_first : forall items before best mid,
  Forall (fun kv => number (snd kv)) items -> number (snd best) ->
  Forall (fun kv => (snd kv <? snd best)%float = true) before ->
  Forall (fun kv => (snd kv <=? snd best)%float = true) mid ->
  exists before' after',
    before ++ best :: mid ++ items = before' ++ max_scan items best :: after' /\
    Forall (fun kv => (snd kv <? snd (max_scan items best))%float = true) before' /\
    Forall (fun kv => (snd kv <=? snd (max_scan items best))%float = true) after'.
Proof.
  induction items as [|it items IH]; intros before best mid Hitems Hbest Hb Hm.
  - exists before, mid. rewrite app_nil_r. now repeat split.
  - inversion Hitems as [|? ? Hit Hitems']; subst. cbn [max_scan].
    destruct (snd best <? snd it)%float eqn:Hlt.
    + destruct (IH (before ++ best :: mid) it [] Hitems' Hit) as (b & a & He & H1 & H2).
      { apply Forall_app. split.
        - eapply Forall_impl; [|exact Hb]. cbv beta. intros a Ha.
          eapply ltb_trans; eassumption.
        - constructor; [assumption|].
          eapply Forall_impl; [|exact Hm]. cbv beta. intros a Ha.
          eapply leb_ltb_trans; eassumption. }
      { constructor. }
      exists b, a. repeat split; try assumption.
      rewrite <- He, <- app_assoc. reflexivity.
    + pose proof (not_ltb_leb _ _ Hbest Hit Hlt) as Hle.
      destruct (IH before best (mid ++ [it]) Hitems' Hbest Hb) as (b & a & He & H1 & H2).
      { apply Forall_app. split; [assumption | now constructor]. }
      exists b, a. repeat split; try assumption.
      rewrite <- He, <- app_assoc. reflexivity.
Qed.

(** ** Dictionaries *)

Lemma dict_set_fresh {V} (d : dict V) k v :
  ~ In k (keys d) -> dict_set d k v = d ++ [(k, v)].
Proof.
  induction d as [|[k' v'] d IH]; intros Hk; [reflexivity|].
  cbn [dict_set]. destruct (String.eqb_spec k' k) as [->|Hne].
  - exfalso. apply Hk. now left.
  - cbn [app]. f_equal. apply IH. intros H. apply Hk. now right.
Qed.

Lemma dict_of_pairs {V} : forall ks (vs : list V) acc,
  NoDup ks -> (forall k, In k ks -> ~ In k (keys acc)) ->
  fold_left (fun d kv => dict_set d (fst kv) (snd kv)) (combine ks vs) acc =
  acc ++ combine ks vs.
Proof.
  induction ks as [|k ks IH]; intros vs acc Hnd Hfresh.
  - cbn. now rewrite app_nil_r.
  - destruct vs as [|v vs]; [cbn; now rewrite app_nil_r|].
    inversion Hnd as [|? ? Hk Hnd']; subst. cbn [combine fold_left fst snd].
    rewrite dict_set_fresh by (apply Hfresh; now left).
    rewrite IH; [now rewrite <- app_assoc | assumption |].
    intros k' Hk' Hin. unfold keys in Hin. rewrite map_app in Hin.
    apply in_app_or in Hin. destruct Hin as [Hin|[<-|[]]].
    + apply (Hfresh k'); [now right | assumption].
    + contradiction.
Qed.

Lemma combine_split {A B} : forall (l1 l2 : list A) (r1 r2 : list B),
  List.length l1 = List.length r1 ->
  combine (l1 ++ l2) (r1 ++ r2) = combine l1 r1 ++ combine l2 r2.
Proof.
  induction l1 as [|x l1 IH]; intros l2 [|y r1] r2 H; try discriminate;
    [reflexivity|].
  cbn. f_equal. apply IH. now injection H.
Qed.

Lemma keys_combine {V} : forall ks (vs : list V),
  List.length ks = List.length vs -> keys (combine ks vs) = ks.
Proof.
  induction ks as [|k ks IH]; intros [|v vs] H; try discriminate;
    [reflexivity|].
  cbn. f_equal. apply IH. now injection H.
Qed.

Lemma dict_get_skip {V} (d1 d2 : dict V) k :
  ~ In k (keys d1) -> dict_get (d1 ++ d2) k = dict_get d2 k.
Proof.
  induction d1 as [|[k' v'] d1 IH]; intros Hk; [reflexivity|].
  cbn [app dict_get]. destruct (String.eqb_spec k' k) as [->|Hne].
  - exfalso. apply Hk. now left.
  - apply IH. intros H. apply Hk. now right.
Qed.

Lemma dict_get_here {V} (d : dict V) k v : dict_get ((k, v) :: d) k = Some v.
Proof. cbn. now rewrite String.eqb_refl. Qed.

Lemma py_index_middle {A} (b : list A) v a :
  py_index (b ++ v :: a) (len b) = Ok v.
Proof.
  unfold py_index, len. destruct (Z.ltb_spec (Z.of_nat (List.length b)) 0); [lia|].
  rewrite Nat2Z.id, nth_error_app2, Nat.sub_diag by lia. reflexivity.
Qed.

(** ** Predictions are coherent *)

Lemma Forall_combine_snd {A B} (P : B -> Prop) (l : list A) (r : list B) :
  Forall P r -> Forall (fun kv => P (snd kv)) (combine l r).
Proof.
  rewrite !Forall_forall. intros H [k v] Hin. apply H.
  eapply in_combine_r; eassumption.
Qed.

Lemma predict_from_probabilities_coherent
    (self : Model.EmotionDetector) probabilities :
  NoDup (Model.emotions self) ->
  List.length probabilities = List.length (Model.emotions self) ->
  probabilities <> [] -> Forall number probabilities ->
  exists p,
    Model.predict_from_probabilities self probabilities = Ok p /\
    coherent (Model.emotions self) p.
Proof.
  intros Hnd Hlen Hne Hnum.
  destruct (np_argmax_first probabilities Hne Hnum)
    as (b & v & a & -> & Hidx & Hb & Ha).
  rewrite length_app in Hlen. cbn [List.length] in Hlen.
  destruct (nth_split (Model.emotions self) ""%string
              (n := List.length b) ltac:(lia)) as (eb & ea & Hsplit & Hleb).
  set (k := nth (List.length b) (Model.emotions self) ""%string) in *.
  unfold Model.predict_from_probabilities. rewrite Hidx. cbn [bind].
  rewrite Hsplit in *.
  replace (len b) with (len eb) by (unfold len; now rewrite Hleb).
  rewrite py_index_middle. cbn [bind].
  replace (len eb) with (len b) by (unfold len; now rewrite Hleb).
  rewrite py_index_middle. cbn [bind].
  rewrite dict_of_pairs by (assumption || (intros ? ? [])). cbn [app].
  rewrite combine_split by assumption. cbn [combine].
  eexists. split; [reflexivity|]. unfold coherent.
  cbn [Prediction.scores Prediction.emotion Prediction.confidence].
  split; [|split].
  - assert (Hlea : List.length ea = List.length a)
      by (rewrite length_app in Hlen; cbn [List.length] in Hlen; lia).
    unfold keys. rewrite map_app. cbn [map fst]. fold (keys (combine eb b)).
    fold (keys (combine ea a)). now rewrite !keys_combine.
  - exists v. split; [|reflexivity].
    rewrite dict_get_skip; [apply dict_get_here|].
    rewrite keys_combine by assumption.
    apply NoDup_remove_2 in Hnd. intros Hin. apply Hnd.
    apply in_or_app. now left.
  - exists (combine eb b), v, (combine ea a). split; [reflexivity|].
    split; now apply (Forall_combine_snd (fun x => (x <? v)%float = true))
            || now apply (Forall_combine_snd (fun x => (x <=? v)%float = true)).
Qed.

Lemma features_path_coherent {lib : AudioLib}
    (self : Model.EmotionDetector) audio sr p :
  Model.emotions self = Model.fallback_emotions \/
  Model.emotions self = Model.model_emotions ->
  Model._predict_with_features self audio sr = Ok p ->
  coherent (Model.emotions self) p.
Proof.
  intros Hlabels. unfold Model._predict_with_features.
  destruct (Model._extract_features audio sr) as [f|e|]; cbn [bind];
    try discriminate.
  destruct (classify_features_checked self f Hlabels) as (p' & -> & Hc & _).
  intros H. injection H as <-. now apply coherentb_sound.
Qed.

Lemma model_emotions_NoDup : NoDup Model.model_emotions.
Proof.
  unfold Model.model_emotions.
  repeat (constructor; [cbn; intuition discriminate|]). constructor.
Qed.

Lemma network_path_coherent {lib : AudioLib} (net : Model.network) audio sr p :
  well_behaved net ->
  try_except
    (bind (call (net audio sr))
          (Model.predict_from_probabilities (model_detector net)))
    (fun _ => Model._predict_with_features (model_detector net) audio sr)
    = Ok p ->
  coherent Model.model_emotions p.
Proof.
  intros Hnet. destruct (net audio sr) as [probabilities|e] eqn:Hcall;
    cbn [call bind try_except].
  - destruct (Hnet _ _ _ Hcall) as [Hlen Hnum].
    destruct (predict_from_probabilities_coherent (model_detector net)
                probabilities model_emotions_NoDup Hlen) as (p' & -> & Hc).
    + intros ->. discriminate.
    + assumption.
    + cbn [try_except]. intros H. injection H as <-. exact Hc.
  - apply (features_path_coherent (model_detector net)). now right.
Qed.

(** C4, as the code has it: for every prediction the classifier returns,
    through the network or through the rules, the scores are keyed by the
    labels of the detector in their order, the confidence is the score of the
    predicted label rounded to four decimals, and the predicted label is the
    first arg-max of the scores in that order (the network answering with one
    number per label); the rules return such a prediction on every feature
    vector, and so does the model path on every answer of the network. *)
Theorem C4_prediction_is_coherent :
  (forall (lib : AudioLib) (pretrained : outcome Model.network)
          (audio_data : list float) (sample_rate : Z) (p : Prediction.t),
     (forall net, pretrained = Returns net -> well_behaved net) ->
     Model.predict_emotion (Model.__init__ pretrained) audio_data sample_rate
       = Ok p ->
     coherent (Model.emotions (Model.__init__ pretrained)) p)
  /\
  (forall (self : Model.EmotionDetector) (features : Features.t),
     Model.emotions self = Model.fallback_emotions \/
     Model.emotions self = Model.model_emotions ->
     exists p,
       Model.classify_features self features = Ok p /\
       coherent (Model.emotions self) p)
  /\
  (forall (net : Model.network) (probabilities : list float),
     List.length probabilities = List.length Model.model_emotions ->
     Forall number probabilities ->
     exists p,
       Model.predict_from_probabilities (model_detector net) probabilities
         = Ok p /\
       coherent Model.model_emotions p).
Proof.
  split; [|split].
  - intros lib pretrained audio_data sample_rate p Hnet.
    destruct pretrained as [net|e].
    + specialize (Hnet net eq_refl).
      change (Model.__init__ (Returns net)) with (model_detector net).
      unfold Model.predict_emotion, Model._predict_with_model.
      cbn [Model.model model_detector Model.__init__ Model.emotions].
      change {| Model.model := Some net;
                Model.emotions := Model.model_emotions |}
        with (model_detector net).
      destruct (negb (sample_rate =? 16000)).
      * destruct (librosa_resample audio_data sample_rate 16000) as [a|e];
          cbn [call bind].
        -- now apply network_path_coherent.
        -- apply (features_path_coherent (model_detector net)). now right.
      * now apply network_path_coherent.
    + unfold Model.predict_emotion. cbn [Model.model Model.__init__].
      apply (features_path_coherent (Model.__init__ (Raises e))). now left.
  - intros self features Hlabels.
    destruct (classify_features_checked self features Hlabels)
      as (p & Hp & Hc & _).
    exists p. split; [exact Hp | now apply coherentb_sound].
  - intros net probabilities Hlen Hnum.
    apply (predict_from_probabilities_coherent (model_detector net));
      try assumption.
    + exact model_emotions_NoDup.
    + intros ->. discriminate.
Qed.

Lemma C4_witness :
  coherent Model.model_emotions
    (Prediction.mk "happy" 0.3%float
       (combine Model.model_emotions
          [0.1; 0.2; 0.05; 0.05; 0.3; 0.1; 0.1; 0.1]%float)).
Proof.
  apply (proj1 C4_prediction_is_coherent (Reference.lib Reference.no_files)
           (Returns constant_network) (zeros 4) 16000).
  - intros net H. injection H as <-. intros a s probabilities H.
    injection H as <-. split; [reflexivity | repeat constructor].
  - vm_compute; reflexivity.
Defined.

(** C4 fails twice: the confidence returned is rounded (0.5714 against the
    score 0.4/0.7); and when the rules run for a detector whose network was
    loaded, a tie between [fearful] and [neutral] goes to [fearful], which
    comes first among the eight labels of the network. *)
Lemma C4_counterexample :
  (exists p,
     Model.classify_features fallback_detector loud_varied = Ok p /\
     Prediction.emotion p = "angry"%string /\
     Prediction.confidence p = 0.5714%float /\
     dict_get (Prediction.scores p) "angry" = Some (0.4 / 0.7)%float /\
     (0.5714 =? 0.4 / 0.7)%float = false)
  /\
  (exists p,
     @Model.predict_emotion (Reference.lib Reference.no_files)
        (model_detector failing_network) (zeros 4) 16000 = Ok p /\
     Prediction.emotion p = "sad"%string)
  /\
  (exists p,
     Model.classify_features (model_detector failing_network) medium_noisy
       = Ok p /\
     Prediction.emotion p = "fearful"%string /\
     dict_get (Prediction.scores p) "fearful" = Some 0.5%float /\
     dict_get (Prediction.scores p) "neutral" = Some 0.5%float).
Proof.
  split; [|split]; run_to_value; repeat split; vm_compute; reflexivity.
Qed.

(** ** Change detection *)

Lemma changes_fold : forall rest pre acc previous,
  fst (fold_left (App.changes_step (pre ++ rest))
         (seq (List.length pre) (List.length rest)) (acc, previous)) =
  acc ++ changes_walk previous rest.
Proof.
  induction rest as [|r rest IH]; intros pre acc previous.
  - cbn. now rewrite app_nil_r.
  - cbn [List.length seq fold_left changes_walk].
    unfold App.changes_step at 2.
    rewrite nth_error_app2, Nat.sub_diag by lia. cbn [nth_error].
    replace (pre ++ r :: rest) with ((pre ++ [r]) ++ rest)
      by (now rewrite <- app_assoc).
    replace (S (List.length pre)) with (List.length (pre ++ [r]))
      by (rewrite length_app; cbn; lia).
    destruct (String.eqb (Result.emotion r) previous); cbn [negb].
    + apply IH.
    + rewrite IH, <- app_assoc. reflexivity.
Qed.

Lemma detect_emotion_changes_walk results :
  App.detect_emotion_changes results = detect_changes results.
Proof.
  unfold App.detect_emotion_changes, detect_changes, len.
  destruct results as [|r0 rest]; [reflexivity|].
  destruct rest as [|r1 rest']; [reflexivity|].
  destruct (Z.ltb_spec (Z.of_nat (List.length (r0 :: r1 :: rest'))) 2) as [H|_];
    [cbn [List.length] in H; lia|].
  replace (List.length (r0 :: r1 :: rest') - 1)%nat
    with (List.length (r1 :: rest')) by (cbn; lia).
  exact (changes_fold (r1 :: rest') [r0] [] (Result.emotion r0)).
Qed.

Lemma changes_walk_uniform e results :
  Forall (fun p => Result.emotion p = e) results ->
  changes_walk e results = [].
Proof.
  induction 1 as [|p rest Hp _ IH]; [reflexivity|].
  cbn [changes_walk]. rewrite Hp, String.eqb_refl. exact IH.
Qed.

(** C8: [detect_emotion_changes] walks the predictions with the previous
    emotion, which starts as that of the first prediction, and emits an event
    exactly where the emotion differs from it, stamped with the start time
    and the confidence of the new prediction; fewer than two predictions, or
    predictions that all carry one label, give no event; the labels neutral,
    neutral, happy, happy, sad give two events, at the third and at the fifth
    prediction. *)
Theorem C8_changes_follow_the_running_emotion :
  (forall results, App.detect_emotion_changes results = detect_changes results)
  /\
  (forall results,
     (List.length results < 2)%nat -> App.detect_emotion_changes results = [])
  /\
  (forall results e,
     Forall (fun p => Result.emotion p = e) results ->
     App.detect_emotion_changes results = [])
  /\
  (forall p1 p2 p3 p4 p5,
     map Result.emotion [p1; p2; p3; p4; p5] =
       ["neutral"; "neutral"; "happy"; "happy"; "sad"]%string ->
     App.detect_emotion_changes [p1; p2; p3; p4; p5] =
       [Change.mk (Result.start_time p3) "neutral" "happy"
                  (Result.confidence p3);
        Change.mk (Result.start_time p5) "happy" "sad"
                  (Result.confidence p5)]).
Proof.
  split; [exact detect_emotion_changes_walk|split; [|split]].
  - intros results H. rewrite detect_emotion_changes_walk.
    destruct results as [|r0 [|r1 rest]]; cbn in *; [reflexivity..|lia].
  - intros results e H. rewrite detect_emotion_changes_walk.
    destruct H as [|p rest Hp H]; [reflexivity|].
    cbn [detect_changes]. rewrite Hp. now apply changes_walk_uniform.
  - intros p1 p2 p3 p4 p5 H. rewrite detect_emotion_changes_walk.
    cbn [map] in H. injection H as H1 H2 H3 H4 H5.
    cbn [detect_changes changes_walk]. rewrite H1, H2, H3, H4, H5.
    reflexivity.
Qed.

Lemma C8_witness :
  App.detect_emotion_changes [labelled_span "happy" 0 3] = [] /\
  App.detect_emotion_changes
    [labelled_span "happy" 0 3; labelled_span "happy" 3 6] = [] /\
  App.detect_emotion_changes
    [labelled_span "neutral" 0 3; labelled_span "neutral" 3 6;
     labelled_span "happy" 6 9; labelled_span "happy" 9 12;
     labelled_span "sad" 12 15] =
    [Change.mk 6 "neutral" "happy" 1; Change.mk 12 "happy" "sad" 1].
Proof.
  destruct C8_changes_follow_the_running_emotion as (_ & Hshort & Hsame & Hfive).
  split; [|split].
  - apply Hshort. cbn. lia.
  - apply (Hsame _ "happy"%string). repeat constructor.
  - apply (Hfive (labelled_span "neutral" 0 3) (labelled_span "neutral" 3 6)
                 (labelled_span "happy" 6 9) (labelled_span "happy" 9 12)
                 (labelled_span "sad" 12 15)).
    reflexivity.
Defined.

(** ** Statistics *)

Lemma keys_dict_set {V} (d : dict V) k v :
  keys (dict_set d k v) = note (keys d) k.
Proof.
  unfold note. induction d as [|[k' v'] d IH]; [reflexivity|].
  cbn [dict_set keys map fst existsb].
  rewrite (String.eqb_sym k k').
  destruct (String.eqb k' k); cbn [orb]; [reflexivity|].
  cbn [keys map fst]. fold (keys (dict_set d k v)). rewrite IH.
  fold (keys d). now destruct (existsb (String.eqb k) (keys d)).
Qed.

Lemma dict_get_set {V} (d : dict V) k v k' :
  dict_get (dict_set d k v) k' =
  if String.eqb k k' then Some v else dict_get d k'.
Proof.
  induction d as [|[k0 v0] d IH]; cbn [dict_set dict_get]; [reflexivity|].
  destruct (String.eqb_spec k0 k) as [->|Hne]; cbn [dict_get].
  - now destruct (String.eqb k k').
  - rewrite IH. destruct (String.eqb_spec k0 k') as [->|Hne'];
      [|reflexivity].
    destruct (String.eqb_spec k k'); [congruence | reflexivity].
Qed.

Lemma note_NoDup seen e : NoDup seen -> NoDup (note seen e).
Proof.
  intros H. unfold note.
  destruct (existsb (String.eqb e) seen) eqn:He; [assumption|].
  apply NoDup_app; [assumption | repeat constructor; intros [] |].
  intros x Hx [->|[]].
  assert (existsb (String.eqb x) seen = true); [|congruence].
  apply existsb_exists. exists x. split; [assumption | apply String.eqb_refl].
Qed.

Lemma fold_note_NoDup es : forall seen,
  NoDup seen -> NoDup (fold_left note es seen).
Proof.
  induction es as [|e es IH]; intros seen H; [assumption|].
  cbn [fold_left]. apply IH. now apply note_NoDup.
Qed.

(** The accumulators after the loop, from any starting point. *)
Lemma accumulate_from : forall results counts durations total,
  let '(_, durations', total') :=
    fold_left App.stats_step results (counts, durations, total) in
  keys durations' = fold_left note (map Result.emotion results) (keys durations)
  /\ total' = fold_left PrimFloat.add (map span results) total
  /\ forall e,
       dict_get durations' e =
       match dict_get durations e with
       | Some v =>
           Some (fold_left PrimFloat.add (map span (labelled e results)) v)
       | None =>
           if existsb (fun p => String.eqb (Result.emotion p) e) results
           then Some (cumulative_duration e results)
           else None
       end.
Proof.
  induction results as [|r results IH]; intros counts durations total.
  - cbn. repeat split. intros e. now destruct (dict_get durations e).
  - cbn [fold_left]. unfold App.stats_step at 2.
    specialize (IH
      (dict_set counts (Result.emotion r)
         (dict_get_default counts (Result.emotion r) 0 + 1))
      (dict_set durations (Result.emotion r)
         (dict_get_default durations (Result.emotion r) 0 +
          (Result.end_time r - Result.start_time r))%float)
      (total + (Result.end_time r - Result.start_time r))%float).
    destruct (fold_left App.stats_step results _) as [[counts' durations'] total'].
    destruct IH as (Hkeys & Htotal & Hget). split; [|split].
    + rewrite Hkeys, keys_dict_set. reflexivity.
    + rewrite Htotal. reflexivity.
    + intros e. rewrite Hget, dict_get_set.
      unfold cumulative_duration, labelled, py_sum, dict_get_default.
      cbn [filter existsb].
      destruct (String.eqb (Result.emotion r) e) eqn:Heq.
      * apply String.eqb_eq in Heq. rewrite Heq.
        cbn [map fold_left orb]. unfold span at 2 4.
        destruct (dict_get durations e); reflexivity.
      * cbn [orb]. reflexivity.
Qed.

Lemma dict_by_keys {V} (f : string -> V) : forall (d : dict V),
  NoDup (keys d) ->
  (forall k, In k (keys d) -> dict_get d k = Some (f k)) ->
  d = map (fun k => (k, f k)) (keys d).
Proof.
  induction d as [|[k v] d IH]; intros Hnd Hget; [reflexivity|].
  inversion Hnd as [|? ? Hk Hnd']; subst. cbn [keys map fst]. f_equal.
  - specialize (Hget k (or_introl eq_refl)). rewrite dict_get_here in Hget.
    now injection Hget as ->.
  - apply IH; [assumption|]. intros k' Hk'.
    specialize (Hget k' (or_intror Hk')). cbn [dict_get] in Hget.
    destruct (String.eqb_spec k k') as [->|_]; [contradiction | assumption].
Qed.

Lemma fold_note_In es : forall seen e,
  In e (fold_left note es seen) -> In e seen \/ In e es.
Proof.
  induction es as [|x es IH]; intros seen e H; [now left|].
  cbn [fold_left] in H. apply IH in H. destruct H as [H|H]; [|right; now right].
  unfold note in H. destruct (existsb (String.eqb x) seen); [now left|].
  apply in_app_or in H. destruct H as [H|[<-|[]]]; [now left | right; now left].
Qed.

(** The accumulators in closed form: the labels in first-seen order, each
    with the sum of its spans, and the sum of all spans. *)
Lemma accumulate_closed results :
  exists counts,
    App.accumulate results =
    (counts,
     map (fun e => (e, cumulative_duration e results)) (first_seen results),
     overall_duration results).
Proof.
  unfold App.accumulate.
  pose proof (accumulate_from results [] [] 0%float) as H.
  destruct (fold_left App.stats_step results _) as [[counts durations] total].
  destruct H as (Hkeys & Htotal & Hget). exists counts.
  cbn [keys map] in Hkeys. fold (first_seen results) in Hkeys.
  f_equal; [f_equal|exact Htotal].
  rewrite <- Hkeys. apply dict_by_keys.
  - rewrite Hkeys. apply fold_note_NoDup. constructor.
  - intros k Hk. rewrite Hget. cbn [dict_get].
    rewrite Hkeys in Hk. apply fold_note_In in Hk. destruct Hk as [[]|Hk].
    apply in_map_iff in Hk. destruct Hk as (p & Hp & Hin).
    assert (existsb (fun p => String.eqb (Result.emotion p) k) results = true)
      as ->; [|reflexivity].
    apply existsb_exists. exists p. split; [assumption|].
    rewrite Hp. apply String.eqb_refl.
Qed.

Lemma fold_note_prefix es : forall seen,
  exists more, fold_left note es seen = seen ++ more.
Proof.
  induction es as [|e es IH]; intros seen.
  - exists []. cbn. now rewrite app_nil_r.
  - cbn [fold_left]. destruct (IH (note seen e)) as (more & ->).
    unfold note. destruct (existsb (String.eqb e) seen).
    + now exists more.
    + exists ([e] ++ more). now rewrite app_assoc.
Qed.

Lemma first_seen_nonempty results :
  results <> [] -> first_seen results <> [].
Proof.
  destruct results as [|r rest]; [congruence|]. intros _.
  unfold first_seen. cbn [map fold_left note existsb].
  destruct (fold_note_prefix (map Result.emotion rest) ([] ++ [Result.emotion r]))
    as (more & ->).
  discriminate.
Qed.

Lemma dominant_first_argmax (d : dict float) :
  d <> [] -> Forall (fun kv => number (snd kv)) d ->
  first_argmax d (App.dominant d).
Proof.
  destruct d as [|it rest]; [congruence|]. intros _ H.
  inversion H as [|? ? Hit Hrest]; subst. cbn [App.dominant].
  destruct (max_scan_first rest [] it [] Hrest Hit (Forall_nil _) (Forall_nil _))
    as (b & a & He & Hb & Ha).
  cbn [app] in He. destruct (max_scan rest it) as [k v] eqn:Hmax.
  cbn [fst snd] in *. exists b, v, a. now repeat split.
Qed.

(** C9, as the code has it: the percentage returned for a label is its
    cumulative duration over the total duration times 100, rounded to two
    decimals, when the total is positive, and 0 otherwise; the labels come in
    first-seen order; the dominant emotion is the first label of that order
    with the greatest cumulative duration (the durations being numbers), and
    'Unknown' when there is no prediction; six seconds of happy, three of sad
    and one of neutral give 'happy' and 60.0, 30.0, 10.0. *)
Theorem C9_percentages_rounded_and_dominant_first :
  (forall results,
     Statistics.emotion_percentages (App.calculate_statistics results) =
     map (fun e =>
            (e, py_round
                  (if (0 <? overall_duration results)%float
                   then (cumulative_duration e results
                         / overall_duration results * 100)%float
                   else 0%float) 2))
         (first_seen results))
  /\
  (forall results,
     results <> [] ->
     (forall e, In e (first_seen results) ->
                number (cumulative_duration e results)) ->
     first_argmax
       (map (fun e => (e, cumulative_duration e results)) (first_seen results))
       (Statistics.dominant_emotion (App.calculate_statistics results)))
  /\
  Statistics.dominant_emotion (App.calculate_statistics []) = "Unknown"%string
  /\
  App.calculate_statistics ten_seconds =
    Statistics.mk 10%float
      [("happy"%string, 2); ("sad"%string, 1); ("neutral"%string, 1)]
      [("happy"%string, 6%float); ("sad"%string, 3%float);
       ("neutral"%string, 1%float)]
      [("happy"%string, 60%float); ("sad"%string, 30%float);
       ("neutral"%string, 10%float)]
      "happy".
Proof.
  split; [|split; [|split]].
  - intros results. unfold App.calculate_statistics.
    destruct (accumulate_closed results) as (counts & ->).
    cbn [Statistics.emotion_percentages]. unfold dict_map_values.
    rewrite !map_map. reflexivity.
  - intros results Hne Hnum. unfold App.calculate_statistics.
    destruct (accumulate_closed results) as (counts & ->).
    cbn [Statistics.dominant_emotion]. apply dominant_first_argmax.
    + intros H. apply (f_equal (@List.length _)) in H.
      rewrite length_map in H. apply (first_seen_nonempty results Hne).
      now apply length_zero_iff_nil.
    + apply Forall_map. apply Forall_forall. exact Hnum.
  - reflexivity.
  - vm_compute. reflexivity.
Qed.

Lemma C9_witness :
  first_argmax
    (map (fun e => (e, cumulative_duration e ten_seconds))
         (first_seen ten_seconds))
    (Statistics.dominant_emotion (App.calculate_statistics ten_seconds)).
Proof.
  apply (proj1 (proj2 C9_percentages_rounded_and_dominant_first) ten_seconds).
  - discriminate.
  - intros e He. vm_compute in He.
    destruct He as [<-|[<-|[<-|[]]]]; vm_compute; reflexivity.
Defined.

(** C9 fails on one second of happy and two of sad: the percentage returned
    for happy is 33.33, not 1 / 3 * 100. *)
Lemma C9_counterexample :
  Statistics.emotion_percentages (App.calculate_statistics three_seconds) =
    [("happy"%string, 33.33%float); ("sad"%string, 66.67%float)] /\
  cumulative_duration "happy" three_seconds = 1%float /\
  overall_duration three_seconds = 3%float /\
  (33.33 =? 1 / 3 * 100)%float = false.
Proof. repeat split; vm_compute; reflexivity. Qed.

(** * Further properties *)

(** ** The name of the upload *)

Section UploadNames.
Import Ascii.

Lemma rsplit_last_none sep s :
  Web.rsplit_last sep s = None <-> Web.contains sep s = false.
Proof.
  induction s as [|c s IH]; cbn [Web.rsplit_last Web.contains]; [tauto|].
  destruct (Web.rsplit_last sep s) as [[b a]|].
  - split; [discriminate|]. intros H. apply orb_false_elim in H.
    destruct H as [_ H]. apply IH in H. discriminate.
  - destruct (Ascii.eqb c sep); cbn [orb]; [split; discriminate|].
    split; intros _; [now apply IH | reflexivity].
Qed.

Lemma rsplit_last_some sep s b a :
  Web.rsplit_last sep s = Some (b, a) ->
  s = (b ++ String sep a)%string /\ Web.contains sep a = false.
Proof.
  revert b. induction s as [|c s IH]; intros b; cbn [Web.rsplit_last];
    [discriminate|].
  destruct (Web.rsplit_last sep s) as [[b' a']|] eqn:Hs.
  - intros H. injection H as <- <-. destruct (IH b' eq_refl) as [-> Ha].
    now split.
  - destruct (Ascii.eqb_spec c sep) as [->|_]; [|discriminate].
    intros H. injection H as <- <-. split; [reflexivity|].
    now apply rsplit_last_none.
Qed.

Lemma rsplit_last_app sep b a :
  Web.contains sep a = false ->
  Web.rsplit_last sep (b ++ String sep a) = Some (b, a).
Proof.
  intros Ha. induction b as [|c b IH]; cbn [append Web.rsplit_last].
  - rewrite (proj2 (rsplit_last_none sep a) Ha). now rewrite Ascii.eqb_refl.
  - now rewrite IH.
Qed.

Lemma contains_app sep b a :
  Web.contains sep (b ++ String sep a) = true.
Proof.
  induction b as [|c b IH]; cbn [append Web.contains].
  - now rewrite Ascii.eqb_refl.
  - rewrite IH. apply orb_true_r.
Qed.

(** Only the dot becomes a dot, and a small letter stays as it is. *)
Lemma lower_char_dot c :
  Ascii.eqb (Web.lower_char c) "." = Ascii.eqb c ".".
Proof. destruct c as [[] [] [] [] [] [] [] []]; reflexivity. Qed.

Lemma lower_char_idem c : Web.lower_char (Web.lower_char c) = Web.lower_char c.
Proof. destruct c as [[] [] [] [] [] [] [] []]; reflexivity. Qed.

Lemma lower_idem s : Web.lower (Web.lower s) = Web.lower s.
Proof.
  induction s as [|c s IH]; cbn [Web.lower]; [reflexivity|].
  now rewrite lower_char_idem, IH.
Qed.

Lemma contains_lower s : Web.contains "." (Web.lower s) = Web.contains "." s.
Proof.
  induction s as [|c s IH]; cbn [Web.lower Web.contains]; [reflexivity|].
  now rewrite lower_char_dot, IH.
Qed.

Lemma rsplit_last_lower s :
  Web.rsplit_last "." (Web.lower s) =
  match Web.rsplit_last "." s with
  | Some (b, a) => Some (Web.lower b, Web.lower a)
  | None => None
  end.
Proof.
  induction s as [|c s IH]; cbn [Web.lower Web.rsplit_last]; [reflexivity|].
  rewrite IH. destruct (Web.rsplit_last "." s) as [[b a]|]; [reflexivity|].
  rewrite lower_char_dot. now destruct (Ascii.eqb c ".").
Qed.

Lemma allowed_extension_no_dot extension :
  In (Web.lower extension) Web.ALLOWED_EXTENSIONS ->
  Web.contains "." extension = false.
Proof.
  intros H. rewrite <- contains_lower.
  destruct H as [<-|[<-|[<-|[<-|[<-|[]]]]]]; reflexivity.
Qed.

(** [allowed_file] through the split of the name. *)
Lemma allowed_file_split filename :
  Web.allowed_file filename =
  match Web.rsplit_last "." filename with
  | Some (_, extension) =>
      Ok (existsb (String.eqb (Web.lower extension)) Web.ALLOWED_EXTENSIONS)
  | None => Ok false
  end.
Proof.
  unfold Web.allowed_file, Web.py_rsplit1.
  destruct (Web.rsplit_last "." filename) as [[b a]|] eqn:Hs.
  - destruct (rsplit_last_some _ _ _ _ Hs) as [-> _].
    now rewrite contains_app.
  - now rewrite (proj1 (rsplit_last_none _ _) Hs).
Qed.

Lemma allowed_file_answers filename :
  exists b, Web.allowed_file filename = Ok b.
Proof.
  rewrite allowed_file_split.
  destruct (Web.rsplit_last "." filename) as [[b a]|]; now eexists.
Qed.

(** X1: [allowed_file] never raises, and it accepts exactly the names that
    end in a dot followed by one of wav, mp3, flac, ogg, m4a in any letter
    case; the text before that last dot plays no role. *)
Theorem X1_allowed_file_checks_the_last_extension (filename : string) :
  (exists b, Web.allowed_file filename = Ok b) /\
  (Web.allowed_file filename = Ok true <->
   exists stem extension,
     filename = (stem ++ "." ++ extension)%string /\
     In (Web.lower extension) Web.ALLOWED_EXTENSIONS).
Proof.
  split; [apply allowed_file_answers|].
  rewrite allowed_file_split.
  - split.
    + destruct (Web.rsplit_last "." filename) as [[b a]|] eqn:Hs;
        [|discriminate].
      intros H.
      assert (H' : existsb (String.eqb (Web.lower a)) Web.ALLOWED_EXTENSIONS
                   = true) by congruence.
      apply existsb_exists in H'.
      destruct H' as (e & He & Heq). apply String.eqb_eq in Heq.
      destruct (rsplit_last_some _ _ _ _ Hs) as [-> _].
      exists b, a. split; [reflexivity | now rewrite Heq].
    + intros (stem & extension & -> & Hin).
      change (stem ++ "." ++ extension)%string
        with (stem ++ String "." extension)%string.
      rewrite rsplit_last_app by now apply allowed_extension_no_dot.
      f_equal. apply existsb_exists. exists (Web.lower extension).
      split; [assumption | apply String.eqb_refl].
Qed.

Lemma X1_witness :
  exists stem extension,
    "take 1.final.MP3"%string = (stem ++ "." ++ extension)%string /\
    In (Web.lower extension) Web.ALLOWED_EXTENSIONS.
Proof.
  apply (proj1 (proj2 (X1_allowed_file_checks_the_last_extension
                         "take 1.final.MP3"))).
  vm_compute; reflexivity.
Defined.

(** X2: the check ignores the letter case of the whole name. *)
Theorem X2_allowed_file_ignores_case (filename : string) :
  Web.allowed_file (Web.lower filename) = Web.allowed_file filename.
Proof.
  rewrite !allowed_file_split, rsplit_last_lower.
  destruct (Web.rsplit_last "." filename) as [[b a]|]; [|reflexivity].
  now rewrite lower_idem.
Qed.

End UploadNames.

(** ** The request *)

(** Every exception of the analysis becomes the answer 500. *)
Lemma analyze_audio_answers {lib : AudioLib} fuel audio_processor
    emotion_detector filepath :
  (exists results emotion_changes stats,
     App.analyze_audio fuel audio_processor emotion_detector filepath
     = Ok (App.Success results emotion_changes stats)) \/
  App.analyze_audio fuel audio_processor emotion_detector filepath
    = Ok (App.Failure 500) \/
  App.analyze_audio fuel audio_processor emotion_detector filepath
    = OutOfFuel.
Proof.
  unfold App.analyze_audio.
  destruct (process_audio fuel audio_processor filepath) as [chunks|e|];
    cbn [bind try_except]; [|now right; left | now right; right].
  match goal with
  | |- context [mapM ?f chunks] => destruct (mapM f chunks) as [results|e|]
  end; cbn [bind try_except];
    [left; now eexists _, _, _ | now right; left | now right; right].
Qed.



(** X4: the upload is removed from the disk exactly when the answer is a
    success; a request leaves nothing, the saved upload, or the upload saved
    and removed; and an answer 500 given after the upload was saved leaves
    the upload on the disk. *)
Theorem X4_upload_is_removed_only_on_success
    {lib : AudioLib} {io : Web.UploadIO} (fuel : nat)
    (audio_processor : AudioProcessor)
    (emotion_detector : Model.EmotionDetector) (name : string) :
  let filepath := Web.path_join Web.UPLOAD_FOLDER (Web.secure_filename name) in
  let outcome :=
    Web.analyze_request fuel audio_processor emotion_detector (Some name) in
  (fst outcome = [] \/ fst outcome = [Web.Saved filepath] \/
   fst outcome = [Web.Saved filepath; Web.Removed filepath])
  /\
  ((exists results emotion_changes stats,
      snd outcome = Ok (App.Success results emotion_changes stats))
   <-> fst outcome = [Web.Saved filepath; Web.Removed filepath])
  /\
  (Web.file_save filepath = Returns tt ->
   snd outcome = Ok (App.Failure 500) ->
   fst outcome = [Web.Saved filepath]).
Proof.
  cbv zeta. unfold Web.analyze_request.
  assert (Hnone : forall r : result App.Response,
            (forall a b c, r <> Ok (App.Success a b c)) ->
            forall log : list Web.effect,
            log <> [Web.Saved (Web.path_join Web.UPLOAD_FOLDER
                                  (Web.secure_filename name));
                    Web.Removed (Web.path_join Web.UPLOAD_FOLDER
                                   (Web.secure_filename name))] ->
            ((exists a b c, snd (log, r) = Ok (App.Success a b c)) <->
             fst (log, r) =
               [Web.Saved (Web.path_join Web.UPLOAD_FOLDER
                             (Web.secure_filename name));
                Web.Removed (Web.path_join Web.UPLOAD_FOLDER
                               (Web.secure_filename name))])).
  { intros r Hr log Hlog. cbn [fst snd]. split.
    - intros (a & b & c & H). destruct (Hr a b c H).
    - intros H. contradiction. }
  destruct (String.eqb_spec name "") as [->|Hname].
  { split; [now left|split; [apply Hnone; discriminate|]].
    intros; discriminate. }
  destruct (allowed_file_answers name) as ([|] & ->);
    [|split; [now left|split; [apply Hnone; discriminate|]];
      intros; discriminate].
  destruct (Web.file_save _) as [[]|e] eqn:Hsave;
    [|split; [now left|split; [apply Hnone; discriminate|]];
      intros; discriminate].
  destruct (analyze_audio_answers fuel audio_processor emotion_detector
              (Web.path_join Web.UPLOAD_FOLDER (Web.secure_filename name)))
    as [(results & changes & stats & ->)|[->| ->]].
  - destruct (Web.os_remove _) as [[]|e].
    + cbn [fst snd]. split; [right; now right|split].
      * split; [reflexivity | intros _; now eexists _, _, _].
      * intros; discriminate.
    + split; [right; now left|split; [apply Hnone; discriminate|]].
      reflexivity.
  - split; [right; now left|split; [apply Hnone; discriminate|]].
    reflexivity.
  - split; [right; now left|split; [apply Hnone; discriminate|]].
    reflexivity.
Qed.

Lemma X4_witness :
  exists results emotion_changes stats,
    snd (@Web.analyze_request (Reference.lib short_recording) plain_disk 4
           default_processor fallback_detector (Some "voice.wav"%string))
    = Ok (App.Success results emotion_changes stats).
Proof.
  apply (proj2 (proj1 (proj2 (@X4_upload_is_removed_only_on_success
                  (Reference.lib short_recording) plain_disk 4
                  default_processor fallback_detector "voice.wav"%string)))).
  vm_compute; reflexivity.
Defined.

(** ** Timestamps *)

Lemma range_check_sound n f :
  range_check n f = true -> forall k, 0 <= k < n -> f k = true.
Proof.
  unfold range_check. intros H k Hk. rewrite forallb_forall in H. apply H.
  apply in_map_iff. exists (Z.to_nat k). split; [lia|]. apply in_seq. lia.
Qed.

Lemma format_02d_two_digits d :
  0 <= d < 100 -> Timestamp.format_02d d = Ok (two_digits d).
Proof.
  intros Hd.
  assert (H : writes_two_digits d = true).
  { apply (range_check_sound 100 writes_two_digits);
      [vm_compute; reflexivity | lia]. }
  unfold writes_two_digits in H.
  destruct (Timestamp.format_02d d) as [s| |]; try discriminate.
  apply String.eqb_eq in H. now subst.
Qed.

Lemma format_02d_within z :
  (digits z <= Timestamp.int_max_str_digits)%nat ->
  Timestamp.format_02d z = Ok (signed_digits z).
Proof.
  intros H. apply Nat.ltb_ge in H.
  unfold Timestamp.format_02d, signed_digits. cbv zeta. fold (digits z).
  rewrite H. destruct (z <? 0); [reflexivity|].
  destruct (digits z <? 2)%nat; reflexivity.
Qed.

Lemma format_02d_beyond z :
  (Timestamp.int_max_str_digits < digits z)%nat ->
  Timestamp.format_02d z = Raise ValueError.
Proof.
  intros H. apply Nat.ltb_lt in H.
  unfold Timestamp.format_02d. cbv zeta. fold (digits z). now rewrite H.
Qed.

Lemma format_timestamp_int_mmss n :
  0 <= n < 6000 ->
  Timestamp.format_timestamp (Timestamp.PyInt n) =
  Ok (two_digits (n / 60) ++ ":" ++ two_digits (n mod 60))%string.
Proof.
  intros Hn. pose proof (Z.mod_pos_bound n 60 ltac:(lia)) as Hm.
  cbn [Timestamp.format_timestamp]. unfold Timestamp.format_fields.
  rewrite (format_02d_two_digits (n / 60)), (format_02d_two_digits (n mod 60));
    [reflexivity | lia |].
  split; [apply Z.div_pos; lia | apply Z.div_lt_upper_bound; lia].
Qed.

(** X5: on an int, [format_timestamp] raises nothing but the ValueError of
    an int too long to write: when the minutes [n / 60] have more than 4300
    digits.  Otherwise it returns the minutes, with their sign, on two
    characters at least, a colon, and the two digits of [n mod 60], also for
    a negative [n]; below 100 minutes the result is MM:SS, five
    characters. *)
Theorem X5_format_timestamp_on_ints (n : Z) :
  ((digits (n / 60) <= Timestamp.int_max_str_digits)%nat ->
   Timestamp.format_timestamp (Timestamp.PyInt n) =
     Ok (signed_digits (n / 60) ++ ":" ++ two_digits (n mod 60))%string)
  /\
  ((Timestamp.int_max_str_digits < digits (n / 60))%nat ->
   Timestamp.format_timestamp (Timestamp.PyInt n) = Raise ValueError)
  /\
  (0 <= n < 6000 ->
   Timestamp.format_timestamp (Timestamp.PyInt n) =
     Ok (two_digits (n / 60) ++ ":" ++ two_digits (n mod 60))%string).
Proof.
  pose proof (Z.mod_pos_bound n 60 ltac:(lia)) as Hm.
  split; [|split].
  - intros H. cbn [Timestamp.format_timestamp].
    unfold Timestamp.format_fields.
    rewrite (format_02d_within _ H), (format_02d_two_digits (n mod 60)) by lia.
    reflexivity.
  - intros H. cbn [Timestamp.format_timestamp].
    unfold Timestamp.format_fields.
    now rewrite (format_02d_beyond _ H).
  - apply format_timestamp_int_mmss.
Qed.

Lemma X5_witness :
  Timestamp.format_timestamp (Timestamp.PyInt (-1)) = Ok "-1:59"%string /\
  Timestamp.format_timestamp (Timestamp.PyInt (60 * 10 ^ 4300))
    = Raise ValueError /\
  Timestamp.format_timestamp (Timestamp.PyInt 3599) = Ok "59:59"%string.
Proof.
  split; [|split].
  - apply (proj1 (X5_format_timestamp_on_ints (-1))).
    apply Nat.ltb_ge. vm_compute; reflexivity.
  - apply (proj1 (proj2 (X5_format_timestamp_on_ints (60 * 10 ^ 4300)))).
    apply Nat.ltb_lt. vm_compute; reflexivity.
  - apply (proj2 (proj2 (X5_format_timestamp_on_ints 3599))). lia.
Defined.

(** X6: a float of [n] whole seconds, [0 <= n < 6000], is formatted as
    MM:SS with the minutes [n / 60] and the seconds [n mod 60], as the int
    [n] is. *)
Theorem X6_format_timestamp_on_whole_seconds (n : Z) :
  0 <= n < 6000 ->
  Timestamp.format_timestamp (Timestamp.PyFloat (float_of_Z n)) =
    Ok (two_digits (n / 60) ++ ":" ++ two_digits (n mod 60))%string.
Proof.
  intros Hn.
  assert (H : same_as_int n = true).
  { apply (range_check_sound 6000 same_as_int);
      [vm_compute; reflexivity | lia]. }
  unfold same_as_int in H.
  destruct (Timestamp.format_timestamp (Timestamp.PyFloat (float_of_Z n)))
    as [s| |]; try discriminate.
  rewrite (format_timestamp_int_mmss n Hn) in H.
  apply String.eqb_eq in H. now subst.
Qed.

Lemma X6_witness :
  Timestamp.format_timestamp (Timestamp.PyFloat (float_of_Z 125)) =
    Ok (two_digits (125 / 60) ++ ":" ++ two_digits (125 mod 60))%string.
Proof. apply (X6_format_timestamp_on_whole_seconds 125). lia. Defined.

(** X7: on a float that is a NaN or an infinity, [format_timestamp] raises
    ValueError: the floor division by 60 gives a NaN, which [int] refuses. *)
Theorem X7_format_timestamp_refuses_non_finite (x : float) :
  finite x = false ->
  Timestamp.format_timestamp (Timestamp.PyFloat x) = Raise ValueError.
Proof.
  unfold finite. intros H. rewrite <- (SF2Prim_Prim2SF x).
  destruct (Prim2SF x) as [s|[|]| |s m e]; try discriminate;
    vm_compute; reflexivity.
Qed.

Lemma X7_witness :
  Timestamp.format_timestamp (Timestamp.PyFloat infinity) = Raise ValueError.
Proof.
  apply (X7_format_timestamp_refuses_non_finite infinity).
  vm_compute; reflexivity.
Defined.

(** ** More on the segmentation *)

Lemma firstn_add {A} (l : list A) : forall n m,
  firstn (n + m) l = firstn n l ++ firstn m (skipn n l).
Proof.
  induction l as [|x l IH]; intros [|n] m; cbn; try reflexivity.
  - now rewrite firstn_nil.
  - now rewrite IH.
Qed.

Lemma py_slice_inside {A} (l : list A) (s e : Z) :
  0 <= s -> s <= e -> e <= len l ->
  py_slice l s e = firstn (Z.to_nat (e - s)) (skipn (Z.to_nat s) l).
Proof.
  intros Hs Hse He. unfold py_slice, slice_index.
  destruct (Z.ltb_spec s 0); [lia|]. destruct (Z.ltb_spec e 0); [lia|].
  now rewrite !Z.min_l by lia.
Qed.

Lemma py_slice_app {A} (l : list A) (a e b : Z) :
  0 <= a -> a <= e -> e <= b -> b <= len l ->
  py_slice l a e ++ py_slice l e b = py_slice l a b.
Proof.
  intros Ha Hae Heb Hb. rewrite !py_slice_inside by lia.
  replace (Z.to_nat (b - a)) with (Z.to_nat (e - a) + Z.to_nat (b - e))%nat
    by lia.
  rewrite firstn_add, skipn_skipn. do 3 f_equal. lia.
Qed.

Lemma py_slice_all {A} (l : list A) : py_slice l 0 (len l) = l.
Proof.
  rewrite py_slice_inside by (pose proof (len_nonneg l); lia).
  cbn [Z.to_nat skipn]. rewrite Z.sub_0_r. unfold len. rewrite Nat2Z.id.
  apply firstn_all.
Qed.

Lemma tiles_le ws : forall a b, tiles ws a b -> a <= b.
Proof.
  induction ws as [|[s e] rest IH]; intros a b H; cbn [tiles] in H; [lia|].
  destruct H as (-> & Hlt & H). apply IH in H. lia.
Qed.

(** The slices of windows that tile a range make up the slice of the
    range. *)
Lemma slices_of_tiles {A} (l : list A) ws : forall a b,
  tiles ws a b -> 0 <= a -> b <= len l ->
  List.concat (map (fun w => py_slice l (fst w) (snd w)) ws) = py_slice l a b.
Proof.
  induction ws as [|[s e] rest IH]; intros a b H Ha Hb; cbn [tiles] in H.
  - subst b. cbn. rewrite py_slice_inside by lia.
    now rewrite Z.sub_diag.
  - destruct H as (-> & Hlt & H). pose proof (tiles_le _ _ _ H).
    cbn [map List.concat fst snd]. rewrite (IH e b H) by lia.
    apply py_slice_app; lia.
Qed.

Lemma unpadded_windows cs audio sr :
  1 <= cs ->
  unpadded (windows cs (len audio))
           (map (chunk_of_window cs audio sr) (windows cs (len audio))) =
  map (fun w => py_slice audio (fst w) (snd w)) (windows cs (len audio)).
Proof.
  intros Hcs. unfold unpadded.
  assert (H : forall ws,
             (forall w, In w ws -> In w (windows cs (len audio))) ->
             map (fun wc => firstn (Z.to_nat (snd (fst wc) - fst (fst wc)))
                                   (Chunk.audio_data (snd wc)))
                 (combine ws (map (chunk_of_window cs audio sr) ws)) =
             map (fun w => py_slice audio (fst w) (snd w)) ws).
  { induction ws as [|w ws IH]; intros Hin; [reflexivity|].
    cbn [map combine fst snd]. f_equal.
    - destruct (windows_In _ _ _ (Hin w (or_introl eq_refl))) as (k & Hk & ->).
      pose proof (window_bounds cs (len audio) k Hcs (len_nonneg audio) Hk) as Hb.
      unfold window in *. cbn [fst snd].
      rewrite chunk_of_window_padding by lia.
      pose proof (len_py_slice audio (k * cs)
                    (Z.min (k * cs + cs) (len audio))
                    ltac:(lia) ltac:(lia) ltac:(lia)) as Hl.
      rewrite firstn_app.
      replace (Z.to_nat _ - List.length _)%nat with O
        by (unfold len in *; lia).
      cbn [firstn]. rewrite app_nil_r. apply firstn_all2.
      unfold len in *; lia.
    - apply IH. intros w' Hw'. apply Hin. now right. }
  apply H. auto.
Qed.

(** X8: the chunks lose nothing and repeat nothing: cut back to the length
    of their windows and put end to end, the payloads are the waveform. *)
Theorem X8_chunks_reassemble_the_waveform
    (self : AudioProcessor) (audio : list float) (sr cs : Z) :
  chunk_samples_of self sr = Ok cs -> 1 <= cs ->
  exists chunks,
    _split_into_chunks (List.length audio) self audio sr = Ok chunks /\
    List.concat (unpadded (windows cs (len audio)) chunks) = audio.
Proof.
  intros Hcs Hpos.
  assert (Hsr : sr <> 0) by (apply (chunk_samples_rate self sr cs Hcs); lia).
  exists (map (chunk_of_window cs audio sr) (windows cs (len audio))). split.
  - unfold _split_into_chunks. rewrite Hcs. cbn [bind].
    now apply split_loop_windows.
  - rewrite unpadded_windows by assumption.
    rewrite (slices_of_tiles audio _ 0 (len audio));
      [apply py_slice_all | | lia | lia].
    apply tiles_windows; [assumption | apply len_nonneg].
Qed.

Lemma X8_witness :
  exists chunks,
    _split_into_chunks (List.length [1; 2; 3; 4; 5]%float) fractional_processor
      [1; 2; 3; 4; 5]%float 16000 = Ok chunks /\
    List.concat (unpadded (windows 1 (len [1; 2; 3; 4; 5]%float)) chunks) =
      [1; 2; 3; 4; 5]%float.
Proof.
  apply (X8_chunks_reassemble_the_waveform fractional_processor
           [1; 2; 3; 4; 5]%float 16000 1).
  - vm_compute; reflexivity.
  - lia.
Defined.

(** X9: the number of chunks is the number of samples divided by
    [chunk_samples], rounded up; a waveform no longer than one chunk gives
    exactly one chunk, whose payload is the waveform followed by zeros and
    whose reported end is the duration of the waveform rounded to two
    decimals. *)
Theorem X9_chunk_count
    (self : AudioProcessor) (audio : list float) (sr cs : Z) :
  chunk_samples_of self sr = Ok cs -> 1 <= cs ->
  exists chunks,
    _split_into_chunks (List.length audio) self audio sr = Ok chunks /\
    len chunks = (len audio + cs - 1) / cs /\
    (0 < len audio <= cs ->
     exists c,
       chunks = [c] /\
       Chunk.audio_data c = audio ++ zeros (cs - len audio) /\
       Chunk.end_time c = py_round (truediv_float (len audio) sr) 2).
Proof.
  intros Hcs Hpos.
  assert (Hsr : sr <> 0) by (apply (chunk_samples_rate self sr cs Hcs); lia).
  pose proof (len_nonneg audio) as Ht.
  exists (map (chunk_of_window cs audio sr) (windows cs (len audio))).
  split; [|split].
  - unfold _split_into_chunks. rewrite Hcs. cbn [bind].
    now apply split_loop_windows.
  - unfold len at 1. rewrite length_map, windows_length.
    fold (window_count cs (len audio)).
    pose proof (window_count_spec cs (len audio) 0 Hpos Ht (Z.le_refl 0)).
    assert (0 <= window_count cs (len audio))
      by (unfold window_count; apply Z.div_pos; lia).
    lia.
  - intros Hshort.
    assert (Hn : window_count cs (len audio) = 1).
    { pose proof (window_count_spec cs (len audio) 0 Hpos Ht (Z.le_refl 0)).
      pose proof (window_count_spec cs (len audio) 1 Hpos Ht ltac:(lia)).
      lia. }
    unfold windows, py_range. rewrite Hn. cbn [Z.to_nat Pos.to_nat Pos.iter_op
      seq map Z.of_nat].
    eexists. split; [reflexivity|]. unfold window.
    rewrite Z.mul_0_l, Z.add_0_l, Z.min_r by lia. split.
    + rewrite chunk_of_window_padding by lia.
      now rewrite py_slice_all, Z.sub_0_r.
    + reflexivity.
Qed.

Lemma X9_witness :
  exists chunks,
    _split_into_chunks (List.length (zeros 3)) default_processor (zeros 3)
      16000 = Ok chunks /\
    len chunks = (len (zeros 3) + 48000 - 1) / 48000 /\
    (0 < len (zeros 3) <= 48000 ->
     exists c,
       chunks = [c] /\
       Chunk.audio_data c = zeros 3 ++ zeros (48000 - len (zeros 3)) /\
       Chunk.end_time c = py_round (truediv_float (len (zeros 3)) 16000) 2).
Proof.
  apply (X9_chunk_count default_processor (zeros 3) 16000 48000).
  - vm_compute; reflexivity.
  - lia.
Defined.

(** With a negative chunk length the position only moves backwards. *)
Lemma split_loop_backward cs audio sr :
  cs < 0 -> audio <> [] -> sr <> 0 ->
  forall fuel position acc,
    position <= 0 ->
    split_loop fuel cs audio sr (position, acc) = OutOfFuel.
Proof.
  intros Hcs Hne Hsr.
  assert (Hlen : 0 < len audio) by (destruct audio; [congruence | cbn; lia]).
  induction fuel as [|fuel IH]; intros position acc Hpos;
    cbn [split_loop fst snd];
    destruct (Z.ltb_spec position (len audio)); try lia; [reflexivity|].
  unfold split_body. rewrite make_chunk_ok by assumption. cbn [bind].
  rewrite Z.min_l by lia. apply IH. lia.
Qed.

(** X10: with a negative [chunk_samples] (a negative chunk duration) and a
    non-empty waveform, the splitting never returns: the position moves away
    from the end of the waveform. *)
Theorem X10_negative_chunk_never_returns
    (self : AudioProcessor) (audio : list float) (sr cs : Z) :
  chunk_samples_of self sr = Ok cs -> cs < 0 -> audio <> [] ->
  forall fuel, _split_into_chunks fuel self audio sr = OutOfFuel.
Proof.
  intros Hcs Hneg Hne fuel.
  assert (Hsr : sr <> 0) by (apply (chunk_samples_rate self sr cs Hcs); lia).
  unfold _split_into_chunks. rewrite Hcs. cbn [bind].
  apply split_loop_backward; assumption || lia.
Qed.

Lemma X10_witness :
  _split_into_chunks 1000 backward_processor (zeros 3) 16000 = OutOfFuel.
Proof.
  apply (X10_negative_chunk_never_returns backward_processor (zeros 3) 16000
           (-48000)).
  - vm_compute; reflexivity.
  - lia.
  - discriminate.
Defined.

Lemma py_int_mul_zero_cases x :
  py_int (x * 0)%float = Ok 0 \/ py_int (x * 0)%float = Raise ValueError.
Proof.
  unfold py_int. rewrite mul_spec.
  change (Prim2SF 0%float) with (S754_zero false).
  destruct (Prim2SF x) as [s|s| |s m e]; cbn; auto.
Qed.

(** X11: at the sample rate 0 a non-empty waveform yields no chunk: the
    first division by the sample rate raises ZeroDivisionError (ValueError
    when the chunk duration is not finite). *)
Theorem X11_zero_sample_rate_raises
    (self : AudioProcessor) (audio : list float) (fuel : nat) :
  audio <> [] ->
  _split_into_chunks (S fuel) self audio 0 = Raise ZeroDivisionError \/
  _split_into_chunks (S fuel) self audio 0 = Raise ValueError.
Proof.
  intros Hne.
  assert (Hlen : 0 < len audio) by (destruct audio; [congruence | cbn; lia]).
  unfold _split_into_chunks, chunk_samples_of.
  change (py_float_of_int 0) with (Ok 0%float). cbn [bind].
  destruct (py_int_mul_zero_cases (chunk_duration self)) as [-> | ->];
    cbn [bind]; [left | now right].
  cbn [split_loop fst snd].
  destruct (Z.ltb_spec 0 (len audio)); [reflexivity | lia].
Qed.

Lemma X11_witness :
  _split_into_chunks 1 default_processor (zeros 3) 0 = Raise ZeroDivisionError
  \/ _split_into_chunks 1 default_processor (zeros 3) 0 = Raise ValueError.
Proof.
  apply (X11_zero_sample_rate_raises default_processor (zeros 3) 0).
  discriminate.
Defined.

(** ** Loading *)

(** X12: [_load_audio] returns a waveform or raises the one exception of a
    failed load; it returns what librosa decoded, untouched, whenever librosa
    decodes the file; and when neither decoder reads the file, no chunk is
    made and the analysis answers 500. *)
Theorem X12_load_failures_surface_as_one_error
    {lib : AudioLib} (fuel : nat) (audio_processor : AudioProcessor)
    (emotion_detector : Model.EmotionDetector) (audio_path : string) :
  ((exists loaded, _load_audio audio_path = Ok loaded) \/
   _load_audio audio_path = Raise LoadFailed)
  /\
  (forall loaded,
     librosa_load audio_path = Returns loaded ->
     _load_audio audio_path = Ok loaded)
  /\
  (forall e1 e2,
     librosa_load audio_path = Raises e1 ->
     pydub_samples audio_path = Raises e2 ->
     process_audio fuel audio_processor audio_path = Raise LoadFailed /\
     App.analyze_audio fuel audio_processor emotion_detector audio_path
       = Ok (App.Failure 500)).
Proof.
  unfold App.analyze_audio, process_audio, _load_audio. split; [|split].
  - destruct (librosa_load audio_path) as [loaded|e1];
      cbn [call try_except]; [left; now eexists|].
    destruct (pydub_samples audio_path) as [[a sr]|e2];
      cbn [call bind try_except]; [|now right].
    destruct (np_max_abs a) as [peak|e3]; cbn [call bind try_except];
      [left; now eexists | now right].
  - intros loaded ->. reflexivity.
  - intros e1 e2 -> ->. cbn [call bind try_except]. now split.
Qed.

Lemma X12_witness :
  @process_audio (Reference.lib Reference.no_files) 0 default_processor
     "missing.wav" = Raise LoadFailed /\
  @App.analyze_audio (Reference.lib Reference.no_files) 0 default_processor
     fallback_detector "missing.wav" = Ok (App.Failure 500).
Proof.
  apply (proj2 (proj2 (@X12_load_failures_surface_as_one_error
           (Reference.lib Reference.no_files) 0 default_processor
           fallback_detector "missing.wav")) LibraryError LibraryError);
    reflexivity.
Defined.

(** ** More on the classifier *)

(** A frame of the pitch loop returns or raises, and adds at most one pitch,
    a positive one. *)
Lemma pitch_frame_cases pitches magnitudes pitch_values t :
  Forall (fun v => (0 <? v)%float = true) pitch_values ->
  (exists pitch_values',
     Model.pitch_frame pitches magnitudes pitch_values t = Ok pitch_values' /\
     Forall (fun v => (0 <? v)%float = true) pitch_values') \/
  (exists e, Model.pitch_frame pitches magnitudes pitch_values t = Raise e).
Proof.
  intros Hpos. unfold Model.pitch_frame.
  destruct (column_cases magnitudes t) as [(col & ->)|(e & ->)]; cbn [bind];
    [|right; now eexists].
  destruct (np_argmax_cases col) as [(i & ->)| ->]; cbn [bind];
    [|right; now eexists].
  destruct (py_index_cases pitches i) as [->|(row & -> & _)]; cbn [bind];
    [right; now eexists|].
  destruct (py_index_cases row t) as [->|(pitch & -> & _)]; cbn [bind];
    [right; now eexists|].
  left. eexists. split; [reflexivity|].
  destruct (0 <? pitch)%float eqn:Hp; [|assumption].
  apply Forall_app. split; [assumption | now constructor].
Qed.

Lemma pitch_loop_cases pitches magnitudes ts : forall pitch_values,
  Forall (fun v => (0 <? v)%float = true) pitch_values ->
  (exists pitch_values',
     for_each ts (Model.pitch_frame pitches magnitudes) pitch_values
       = Ok pitch_values' /\
     Forall (fun v => (0 <? v)%float = true) pitch_values') \/
  (exists e,
     for_each ts (Model.pitch_frame pitches magnitudes) pitch_values
       = Raise e).
Proof.
  induction ts as [|t ts IH]; intros pitch_values Hpos; cbn [for_each].
  - left. now exists pitch_values.
  - destruct (pitch_frame_cases pitches magnitudes pitch_values t Hpos)
      as [(pv & -> & Hpv)|(e & ->)]; cbn [bind];
      [now apply IH | right; now eexists].
Qed.

(** What the [try] block of the pitch estimation leaves in [pitch_mean] and
    [pitch_std]. *)
Lemma pitch_statistics_cases {lib : AudioLib} audio sr :
  exists pitch_mean pitch_std,
    try_except
      (bind (call (piptrack audio sr)) (fun '(pitches, magnitudes) =>
       bind (for_each (py_range (Model.shape1 pitches))
               (Model.pitch_frame pitches magnitudes) [])
            (fun pitch_values =>
       Ok (match pitch_values with
           | [] => (0%float, 0%float)
           | _ => (np_mean pitch_values, np_std pitch_values)
           end))))
      (fun _ => Ok (0%float, 0%float))
    = Ok (pitch_mean, pitch_std) /\
    ((pitch_mean = 0%float /\ pitch_std = 0%float) \/
     exists pitch_values,
       pitch_values <> [] /\
       Forall (fun v => (0 <? v)%float = true) pitch_values /\
       pitch_mean = np_mean pitch_values /\
       pitch_std = np_std pitch_values) /\
    (forall e, piptrack audio sr = Raises e ->
               pitch_mean = 0%float /\ pitch_std = 0%float).
Proof.
  destruct (piptrack audio sr) as [[pitches magnitudes]|e];
    cbn [call bind try_except].
  - destruct (pitch_loop_cases pitches magnitudes
                (py_range (Model.shape1 pitches)) [] (Forall_nil _))
      as [(pv & -> & Hpv)|(e & ->)]; cbn [bind try_except].
    + destruct pv as [|v pv'].
      * exists 0%float, 0%float. repeat split; try discriminate. now left.
      * eexists _, _. split; [reflexivity|]. split; [|discriminate].
        right. exists (v :: pv'). repeat split; [discriminate | assumption].
    + exists 0%float, 0%float. repeat split; try discriminate. now left.
  - exists 0%float, 0%float. repeat split. now left.
Qed.

(** X13: feature extraction fails only with the zero-crossing rate: when
    that raises, its exception propagates; when it returns, the features are
    returned whatever the pitch tracker does, with [pitch_mean] and
    [pitch_std] both 0 or the mean and deviation of a non-empty list of
    positive pitches, and both 0 when the tracker raises. *)
Theorem X13_only_zero_crossing_failures_surface
    {lib : AudioLib} (audio_data : list float) (sample_rate : Z) :
  (forall e,
     zero_crossing_rate audio_data = Raises e ->
     Model._extract_features audio_data sample_rate = Raise e)
  /\
  (forall frames,
     zero_crossing_rate audio_data = Returns frames ->
     exists pitch_mean pitch_std,
       Model._extract_features audio_data sample_rate =
         Ok (Features.mk
               (np_divide (np_sum (np_square audio_data)) (len audio_data))
               (np_mean frames) pitch_mean pitch_std) /\
       ((pitch_mean = 0%float /\ pitch_std = 0%float) \/
        exists pitch_values,
          pitch_values <> [] /\
          Forall (fun v => (0 <? v)%float = true) pitch_values /\
          pitch_mean = np_mean pitch_values /\
          pitch_std = np_std pitch_values) /\
       (forall e, piptrack audio_data sample_rate = Raises e ->
                  pitch_mean = 0%float /\ pitch_std = 0%float)).
Proof.
  unfold Model._extract_features. split.
  - intros e ->. reflexivity.
  - intros frames ->. cbn [call bind].
    destruct (pitch_statistics_cases audio_data sample_rate)
      as (pm & ps & -> & H). cbn [bind]. now exists pm, ps.
Qed.

Lemma X13_witness :
  exists pitch_mean pitch_std,
    @Model._extract_features (Reference.lib Reference.no_files)
       [0.5; -0.5; 0.5; -0.5]%float 16000 =
      Ok (Features.mk
            (@np_divide (Reference.lib Reference.no_files)
               (@np_sum (Reference.lib Reference.no_files)
                  (@np_square (Reference.lib Reference.no_files)
                     [0.5; -0.5; 0.5; -0.5]%float))
               (len [0.5; -0.5; 0.5; -0.5]%float))
            (@np_mean (Reference.lib Reference.no_files) [0.00146484375%float])
            pitch_mean pitch_std) /\
    ((pitch_mean = 0%float /\ pitch_std = 0%float) \/
     exists pitch_values,
       pitch_values <> [] /\
       Forall (fun v => (0 <? v)%float = true) pitch_values /\
       pitch_mean = @np_mean (Reference.lib Reference.no_files) pitch_values /\
       pitch_std = @np_std (Reference.lib Reference.no_files) pitch_values) /\
    (forall e,
       @piptrack (Reference.lib Reference.no_files)
          [0.5; -0.5; 0.5; -0.5]%float 16000 = Raises e ->
       pitch_mean = 0%float /\ pitch_std = 0%float).
Proof.
  apply (proj2 (@X13_only_zero_crossing_failures_surface
                  (Reference.lib Reference.no_files)
                  [0.5; -0.5; 0.5; -0.5]%float 16000) [0.00146484375%float]).
  vm_compute; reflexivity.
Defined.

(** The rules answer whenever the zero-crossing rate is computed. *)
Lemma features_path_answers {lib : AudioLib}
    (self : Model.EmotionDetector) audio sr :
  Model.emotions self = Model.fallback_emotions \/
  Model.emotions self = Model.model_emotions ->
  (exists frames, zero_crossing_rate audio = Returns frames) ->
  exists p, Model._predict_with_features self audio sr = Ok p.
Proof.
  intros Hlabels (frames & Hzcr). unfold Model._predict_with_features,
    Model._extract_features. rewrite Hzcr. cbn [call bind].
  destruct (pitch_statistics_cases audio sr) as (pm & ps & -> & _).
  cbn [bind].
  destruct (classify_features_checked self
              (Features.mk (np_divide (np_sum (np_square audio)) (len audio))
                 (np_mean frames) pm ps) Hlabels) as (p & Hp & _).
  now exists p.
Qed.

Lemma predict_emotion_answers {lib : AudioLib}
    (pretrained : outcome Model.network) audio sr :
  crossings_computable audio sr ->
  exists p,
    Model.predict_emotion (Model.__init__ pretrained) audio sr = Ok p.
Proof.
  intros Hzcr. destruct pretrained as [net|e];
    unfold Model.predict_emotion; cbn [Model.model Model.__init__].
  - assert (Hrules : forall a s,
              (exists frames, zero_crossing_rate a = Returns frames) ->
              exists p, Model._predict_with_features
                          {| Model.model := Some net;
                             Model.emotions := Model.model_emotions |} a s
                        = Ok p).
    { intros a s Ha. apply features_path_answers; [now right | exact Ha]. }
    assert (Hnet : forall a s,
              (exists frames, zero_crossing_rate a = Returns frames) ->
              exists p,
                try_except
                  (bind (call (net a s))
                        (Model.predict_from_probabilities
                           {| Model.model := Some net;
                              Model.emotions := Model.model_emotions |}))
                  (fun _ => Model._predict_with_features
                              {| Model.model := Some net;
                                 Model.emotions := Model.model_emotions |} a s)
                = Ok p).
    { intros a s Ha. destruct (net a s) as [probabilities|e];
        cbn [call bind try_except]; [|now apply Hrules].
      unfold Model.predict_from_probabilities.
      destruct (np_argmax_cases probabilities) as [(i & ->)| ->];
        cbn [bind try_except]; [|now apply Hrules].
      destruct (py_index_cases
                  (Model.emotions {| Model.model := Some net;
                                     Model.emotions := Model.model_emotions |})
                  i) as [->|(label & -> & _)];
        cbn [bind try_except]; [now apply Hrules|].
      destruct (py_index_cases probabilities i) as [->|(v & -> & _)];
        cbn [bind try_except]; [now apply Hrules | now eexists]. }
    unfold Model._predict_with_model.
    destruct (negb (sr =? 16000)); [|apply Hnet, Hzcr; now left].
    destruct (librosa_resample audio sr 16000) as [a|e] eqn:Hres;
      cbn [call bind];
      [apply Hnet, Hzcr; now right | apply Hrules, Hzcr; now left].
  - apply features_path_answers; [now left | apply Hzcr; now left].
Qed.

(** The stand-in computes the zero-crossing rate of every waveform that is
    not empty and finite everywhere. *)
Lemma crossing_rate_returns a :
  a <> [] -> forallb PrimFloat.is_finite a = true ->
  exists frames, Reference.crossing_rate a = Returns frames.
Proof.
  intros Hne Hfinite. unfold Reference.crossing_rate. rewrite Hfinite.
  destruct a as [|x a]; [congruence|]. cbn [negb Reference.pad_edge].
  eexists. reflexivity.
Qed.

(** X14: the classifier answers with a prediction as long as the
    zero-crossing rate is computed on the waveform, and on its resampling at
    16 kHz if there is one: a network that raises, answers with nothing or
    points at no label, a failed resampling and a failed pitch tracking are
    all absorbed. *)
Theorem X14_predict_emotion_always_answers {lib : AudioLib}
    (pretrained : outcome Model.network) (audio_data : list float)
    (sample_rate : Z) :
  crossings_computable audio_data sample_rate ->
  exists p,
    Model.predict_emotion (Model.__init__ pretrained) audio_data sample_rate
      = Ok p.
Proof.
  intros Hzcr. now apply predict_emotion_answers.
Qed.

Lemma X14_witness :
  exists p,
    @Model.predict_emotion (Reference.lib Reference.no_files)
       (Model.__init__ (Returns failing_network)) (zeros 4) 8000 = Ok p.
Proof.
  apply (@X14_predict_emotion_always_answers
           (Reference.lib Reference.no_files) (Returns failing_network)
           (zeros 4) 8000).
  intros a [-> | Hres]; [|discriminate Hres].
  apply crossing_rate_returns; [discriminate | vm_compute; reflexivity].
Defined.

(** X15: when the network raises, or answers with no probability at all,
    the prediction is the one of the rules, made over the eight labels of
    the network. *)
Theorem X15_failed_network_falls_back_to_rules {lib : AudioLib}
    (net : Model.network) (audio_data : list float) :
  (exists e, net audio_data 16000 = Raises e) \/
  net audio_data 16000 = Returns [] ->
  Model.predict_emotion (model_detector net) audio_data 16000 =
  Model._predict_with_features (model_detector net) audio_data 16000.
Proof.
  intros H. unfold Model.predict_emotion, Model._predict_with_model.
  cbn [model_detector Model.__init__ Model.model negb Z.eqb Pos.eqb].
  destruct H as [(e & ->)| ->]; reflexivity.
Qed.

Lemma X15_witness :
  @Model.predict_emotion (Reference.lib Reference.no_files)
     (model_detector failing_network) (zeros 4) 16000 =
  @Model._predict_with_features (Reference.lib Reference.no_files)
     (model_detector failing_network) (zeros 4) 16000.
Proof.
  apply (@X15_failed_network_falls_back_to_rules
           (Reference.lib Reference.no_files) failing_network (zeros 4)).
  left. eexists. reflexivity.
Defined.

(** X16: without a network the rules have six outcomes: [angry] at 0.5714,
    [happy], [sad] or [neutral] at 1.0, and [neutral] at 0.5 when [fearful]
    ties with it; [fearful] and [surprised] are never predicted. *)
Theorem X16_rule_outcomes (features : Features.t) :
  exists p,
    Model.classify_features fallback_detector features = Ok p /\
    (Prediction.emotion p, Prediction.confidence p) =
      (if (0.5 <? Features.energy features)%float then
         if (50 <? Features.pitch_std features)%float
         then ("angry"%string, 0.5714%float)
         else ("happy"%string, 1%float)
       else if (Features.energy features <? 0.2)%float then
         if (Features.pitch_mean features <? 150)%float
         then ("sad"%string, 1%float)
         else ("neutral"%string, 1%float)
       else
         if (0.1 <? Features.zero_crossing_rate features)%float
         then ("neutral"%string, 0.5%float)
         else ("neutral"%string, 1%float)) /\
    In (Prediction.emotion p) ["angry"; "happy"; "sad"; "neutral"]%string.
Proof.
  destruct features as [e z pm ps].
  cbn [Features.energy Features.zero_crossing_rate Features.pitch_mean
       Features.pitch_std].
  cascade e z pm ps; run_to_value; split; vm_compute; auto 6.
Qed.

(** X17: a chunk of medium energy with a zero-crossing rate above 0.1 scores
    [fearful] and [neutral] 0.5 each; the rules label it [neutral] when no
    network was loaded and [fearful] when one was, since the tie goes to the
    first of the detector's labels. *)
Theorem X17_tie_depends_on_the_label_list
    (net : Model.network) (features : Features.t) :
  (0.5 <? Features.energy features)%float = false ->
  (Features.energy features <? 0.2)%float = false ->
  (0.1 <? Features.zero_crossing_rate features)%float = true ->
  exists p q,
    Model.classify_features fallback_detector features = Ok p /\
    Model.classify_features (model_detector net) features = Ok q /\
    Prediction.emotion p = "neutral"%string /\
    Prediction.emotion q = "fearful"%string /\
    Prediction.confidence p = 0.5%float /\
    Prediction.confidence q = 0.5%float /\
    dict_get (Prediction.scores p) "fearful" = Some 0.5%float /\
    dict_get (Prediction.scores q) "neutral" = Some 0.5%float.
Proof.
  destruct features as [e z pm ps].
  cbn [Features.energy Features.zero_crossing_rate Features.pitch_mean
       Features.pitch_std].
  intros H1 H2 H3. unfold Model.classify_features, Model.rule_scores.
  cbn [Features.energy Features.zero_crossing_rate Features.pitch_mean
       Features.pitch_std].
  rewrite H1, H2, H3.
  eexists _, _. repeat split; vm_compute; reflexivity.
Qed.

Lemma X17_witness :
  exists p q,
    Model.classify_features fallback_detector medium_noisy = Ok p /\
    Model.classify_features (model_detector failing_network) medium_noisy
      = Ok q /\
    Prediction.emotion p = "neutral"%string /\
    Prediction.emotion q = "fearful"%string /\
    Prediction.confidence p = 0.5%float /\
    Prediction.confidence q = 0.5%float /\
    dict_get (Prediction.scores p) "fearful" = Some 0.5%float /\
    dict_get (Prediction.scores q) "neutral" = Some 0.5%float.
Proof.
  apply (X17_tie_depends_on_the_label_list failing_network medium_noisy);
    vm_compute; reflexivity.
Defined.

(** ** The pipeline *)

Lemma mapM_all_ok {A B} (f : A -> result B) (P : A -> B -> Prop) l :
  (forall x, In x l -> exists y, f x = Ok y /\ P x y) ->
  exists ys, mapM f l = Ok ys /\ Forall2 P l ys.
Proof.
  induction l as [|x l IH]; intros Hf; cbn [mapM].
  - exists []. split; [reflexivity | constructor].
  - destruct (Hf x (or_introl eq_refl)) as (y & -> & Hy).
    destruct IH as (ys & Hys & HP); [intros z Hz; apply Hf; now right|].
    rewrite Hys. cbn [bind].
    exists (y :: ys). split; [reflexivity | now constructor].
Qed.

Lemma Forall2_times chunks results :
  Forall2 (fun c r => Result.start_time r = Chunk.start_time c /\
                      Result.end_time r = Chunk.end_time c) chunks results ->
  map (fun r => (Result.start_time r, Result.end_time r)) results =
  map (fun c => (Chunk.start_time c, Chunk.end_time c)) chunks.
Proof.
  induction 1 as [|c r chunks results [Hs He] _ IH]; [reflexivity|].
  cbn [map]. now rewrite Hs, He, IH.
Qed.

Lemma chunk_of_window_rate cs audio sr w :
  Chunk.sample_rate (chunk_of_window cs audio sr w) = sr.
Proof. destruct w. reflexivity. Qed.

(** X18: once the file is decoded at the target rate, with at least one
    sample per chunk and the zero-crossing rate computed on the payload of
    every chunk (and on its resampling at 16 kHz if there is one), the
    analysis succeeds: it returns one result per chunk, in order, carrying
    the start and end times of the chunk, with the change events and
    statistics of those results; the number of results is the number of
    samples divided by [chunk_samples], rounded up. *)
Theorem X18_analysis_gives_one_result_per_chunk {lib : AudioLib}
    (fuel : nat) (audio_processor : AudioProcessor)
    (pretrained : outcome Model.network) (filepath : string)
    (audio : list float) (cs : Z) :
  librosa_load filepath = Returns (audio, sample_rate audio_processor) ->
  chunk_samples_of audio_processor (sample_rate audio_processor) = Ok cs ->
  1 <= cs -> (List.length audio <= fuel)%nat ->
  Forall (fun w =>
            crossings_computable
              (Chunk.audio_data
                 (chunk_of_window cs audio (sample_rate audio_processor) w))
              (sample_rate audio_processor))
         (windows cs (len audio)) ->
  exists results,
    App.analyze_audio fuel audio_processor (Model.__init__ pretrained) filepath
      = Ok (App.Success results (App.detect_emotion_changes results)
                        (App.calculate_statistics results)) /\
    map (fun r => (Result.start_time r, Result.end_time r)) results =
      map (fun c => (Chunk.start_time c, Chunk.end_time c))
          (map (chunk_of_window cs audio (sample_rate audio_processor))
               (windows cs (len audio))) /\
    len results = (len audio + cs - 1) / cs.
Proof.
  intros Hload Hcs Hpos Hfuel Hzcr.
  assert (Hsr : sample_rate audio_processor <> 0)
    by (apply (chunk_samples_rate audio_processor _ cs Hcs); lia).
  assert (Hproc : process_audio fuel audio_processor filepath =
                  Ok (map (chunk_of_window cs audio (sample_rate audio_processor))
                          (windows cs (len audio)))).
  { unfold process_audio, _load_audio. rewrite Hload.
    cbn [call try_except bind]. rewrite Z.eqb_refl. cbn [negb bind].
    unfold _split_into_chunks. rewrite Hcs. cbn [bind].
    now apply split_loop_windows. }
  unfold App.analyze_audio. rewrite Hproc. cbn [bind].
  match goal with
  | |- context [mapM ?f ?l] =>
      destruct (mapM_all_ok f
                  (fun c r => Result.start_time r = Chunk.start_time c /\
                              Result.end_time r = Chunk.end_time c) l)
        as (results & -> & Htimes)
  end.
  { intros c Hc. apply in_map_iff in Hc. destruct Hc as (w & <- & Hw).
    rewrite Forall_forall in Hzcr. specialize (Hzcr w Hw).
    rewrite chunk_of_window_rate.
    destruct (predict_emotion_answers pretrained _ _ Hzcr) as (p & ->).
    cbn [bind]. eexists. split; [reflexivity|]. now split. }
  cbn [bind try_except]. exists results. split; [reflexivity|]. split.
  - now apply Forall2_times.
  - pose proof (Forall2_length Htimes) as Hl. unfold len at 1.
    rewrite <- Hl, length_map, windows_length.
    fold (window_count cs (len audio)).
    assert (0 <= window_count cs (len audio))
      by (unfold window_count; apply Z.div_pos;
          pose proof (len_nonneg audio); lia).
    lia.
Qed.

Lemma X18_witness :
  exists results,
    @App.analyze_audio (Reference.lib short_recording) 4 default_processor
       (Model.__init__ (Returns failing_network)) "voice.wav"
      = Ok (App.Success results (App.detect_emotion_changes results)
                        (App.calculate_statistics results)) /\
    map (fun r => (Result.start_time r, Result.end_time r)) results =
      map (fun c => (Chunk.start_time c, Chunk.end_time c))
          (map (chunk_of_window 48000 (zeros 4) 16000)
               (windows 48000 (len (zeros 4)))) /\
    len results = (len (zeros 4) + 48000 - 1) / 48000.
Proof.
  apply (@X18_analysis_gives_one_result_per_chunk
           (Reference.lib short_recording) 4 default_processor
           (Returns failing_network) "voice.wav" (zeros 4) 48000).
  - reflexivity.
  - vm_compute; reflexivity.
  - lia.
  - vm_compute; constructor.
  - change (windows 48000 (len (zeros 4))) with [(0, 4)].
    constructor; [|constructor].
    intros a [-> | Hres]; [|discriminate Hres].
    apply crossing_rate_returns; [|vm_compute; reflexivity].
    intros H. apply (f_equal len) in H.
    vm_compute in H. discriminate H.
Defined.

(** ** More on the change events *)

(** The running previous emotion is that of the prediction just before. *)
Lemma changes_walk_adjacent : forall rest p,
  changes_walk (Result.emotion p) rest =
  flat_map (fun pair => change_between (fst pair) (snd pair))
           (combine (p :: rest) rest).
Proof.
  induction rest as [|r rest IH]; intros p; [reflexivity|].
  cbn [changes_walk combine flat_map fst snd]. unfold change_between at 1.
  destruct (String.eqb_spec (Result.emotion r) (Result.emotion p)) as [Heq|_].
  - cbn [app]. rewrite <- Heq. apply IH.
  - cbn [app]. f_equal. apply IH.
Qed.

(** X19: the events are exactly those of the adjacent pairs of predictions
    with different emotions, in order: the previous emotion the loop keeps is
    always the emotion of the prediction just before, and each event carries
    the start time and confidence of the second prediction of its pair. *)
Theorem X19_events_are_the_adjacent_differences (results : list Result.t) :
  App.detect_emotion_changes results = adjacent_changes results.
Proof.
  rewrite detect_emotion_changes_walk. unfold detect_changes, adjacent_changes.
  destruct results as [|p rest]; [reflexivity|].
  cbn [tl]. apply changes_walk_adjacent.
Qed.

Lemma changes_walk_nil e : forall rest,
  changes_walk e rest = [] -> Forall (fun p => Result.emotion p = e) rest.
Proof.
  induction rest as [|r rest IH]; intros H; [constructor|].
  cbn [changes_walk] in H.
  destruct (String.eqb_spec (Result.emotion r) e) as [Heq|_];
    [|discriminate].
  constructor; [assumption | now apply IH].
Qed.

(** X20: there is no event exactly when all the predictions carry the same
    emotion. *)
Theorem X20_no_event_iff_one_emotion (results : list Result.t) :
  App.detect_emotion_changes results = [] <->
  exists e, Forall (fun p => Result.emotion p = e) results.
Proof.
  rewrite detect_emotion_changes_walk. unfold detect_changes.
  destruct results as [|p rest].
  - split; [intros _; exists ""%string; constructor | reflexivity].
  - split.
    + intros H. exists (Result.emotion p).
      constructor; [reflexivity | now apply changes_walk_nil].
    + intros (e & H). inversion H as [|? ? Hp Hrest]; subst.
      now apply changes_walk_uniform.
Qed.

Lemma X20_witness :
  exists e, Forall (fun p => Result.emotion p = e)
                   [labelled_span "sad" 0 3; labelled_span "sad" 3 6].
Proof.
  apply (proj1 (X20_no_event_iff_one_emotion
                  [labelled_span "sad" 0 3; labelled_span "sad" 3 6])).
  vm_compute; reflexivity.
Defined.

Lemma last_cons {A} (x : A) l : forall d, last (x :: l) d = last l x.
Proof.
  revert x. induction l as [|y l IH]; intros x d; [reflexivity|].
  change (last (x :: y :: l) d) with (last (y :: l) d).
  rewrite IH. symmetry. apply IH.
Qed.

Lemma changes_walk_chained : forall rest p,
  chained (Result.emotion p) (changes_walk (Result.emotion p) rest)
          (Result.emotion (last rest p)).
Proof.
  induction rest as [|r rest IH]; intros p; [reflexivity|].
  rewrite last_cons. cbn [changes_walk].
  destruct (String.eqb_spec (Result.emotion r) (Result.emotion p)) as [Heq|Hne].
  - rewrite <- Heq. apply IH.
  - cbn [chained Change.from_emotion Change.to_emotion].
    repeat split; [assumption | apply IH].
Qed.

(** X21: the events form a chain: the first leaves the emotion of the first
    prediction, each leaves the emotion the one before reached, none stays on
    its emotion, and the last reaches the emotion of the last prediction. *)
Theorem X21_events_chain_from_first_to_last
    (first : Result.t) (rest : list Result.t) :
  chained (Result.emotion first)
          (App.detect_emotion_changes (first :: rest))
          (Result.emotion (last rest first)).
Proof.
  rewrite detect_emotion_changes_walk. apply changes_walk_chained.
Qed.

(** ** More on the statistics *)

Lemma fold_note_complete es : forall seen e,
  In e seen \/ In e es -> In e (fold_left note es seen).
Proof.
  induction es as [|x es IH]; intros seen e H; cbn [fold_left].
  - destruct H as [H|[]]. exact H.
  - apply IH. unfold note.
    destruct (existsb (String.eqb x) seen) eqn:Hx.
    + destruct H as [H|[<-|H]]; [now left | left | now right].
      apply existsb_exists in Hx. destruct Hx as (y & Hy & Heq).
      apply String.eqb_eq in Heq. now subst.
    + destruct H as [H|[<-|H]]; [left | left | now right];
        apply in_or_app; [now left | right; now left].
Qed.

(** The counts after the loop, from any starting point. *)
Lemma counts_from : forall results counts durations total,
  let '(counts', _, _) :=
    fold_left App.stats_step results (counts, durations, total) in
  keys counts' = fold_left note (map Result.emotion results) (keys counts)
  /\ forall e,
       dict_get counts' e =
       match dict_get counts e with
       | Some v => Some (v + label_count e results)
       | None =>
           if existsb (fun p => String.eqb (Result.emotion p) e) results
           then Some (label_count e results)
           else None
       end.
Proof.
  induction results as [|r results IH]; intros counts durations total.
  - cbn. split; [reflexivity|]. intros e.
    destruct (dict_get counts e); [f_equal; unfold label_count; cbn; lia
                                  | reflexivity].
  - cbn [fold_left]. unfold App.stats_step at 2.
    specialize (IH
      (dict_set counts (Result.emotion r)
         (dict_get_default counts (Result.emotion r) 0 + 1))
      (dict_set durations (Result.emotion r)
         (dict_get_default durations (Result.emotion r) 0 +
          (Result.end_time r - Result.start_time r))%float)
      (total + (Result.end_time r - Result.start_time r))%float).
    destruct (fold_left App.stats_step results _) as [[counts' durations'] total'].
    destruct IH as (Hkeys & Hget). split.
    + rewrite Hkeys, keys_dict_set. reflexivity.
    + intros e. rewrite Hget, dict_get_set.
      unfold label_count, labelled, dict_get_default.
      cbn [filter existsb].
      destruct (String.eqb (Result.emotion r) e) eqn:Heq.
      * apply String.eqb_eq in Heq. rewrite Heq. cbn [orb].
        destruct (dict_get counts e); f_equal; unfold len;
          cbn [List.length]; lia.
      * cbn [orb]. reflexivity.
Qed.

Lemma counts_closed results :
  exists durations total,
    App.accumulate results =
    (map (fun e => (e, label_count e results)) (first_seen results),
     durations, total).
Proof.
  unfold App.accumulate.
  pose proof (counts_from results [] [] 0%float) as H.
  destruct (fold_left App.stats_step results _) as [[counts durations] total].
  destruct H as (Hkeys & Hget). exists durations, total.
  cbn [keys map] in Hkeys. fold (first_seen results) in Hkeys.
  do 2 f_equal. rewrite <- Hkeys. apply dict_by_keys.
  - rewrite Hkeys. apply fold_note_NoDup. constructor.
  - intros k Hk. rewrite Hget. cbn [dict_get].
    rewrite Hkeys in Hk. apply fold_note_In in Hk. destruct Hk as [[]|Hk].
    apply in_map_iff in Hk. destruct Hk as (p & Hp & Hin).
    assert (existsb (fun p => String.eqb (Result.emotion p) k) results = true)
      as ->; [|reflexivity].
    apply existsb_exists. exists p. split; [assumption|].
    rewrite Hp. apply String.eqb_refl.
Qed.

(** Over distinct labels that include [x], exactly one is [x]. *)
Lemma one_label_matches x : forall ks,
  NoDup ks -> In x ks ->
  fold_right Z.add 0
    (map (fun k => if String.eqb x k then 1 else 0) ks) = 1.
Proof.
  induction ks as [|k ks IH]; intros Hnd Hin; [destruct Hin|].
  inversion Hnd as [|? ? Hk Hnd']; subst. cbn [map fold_right].
  destruct (String.eqb_spec x k) as [->|Hne].
  - assert (fold_right Z.add 0
              (map (fun k' => if String.eqb k k' then 1 else 0) ks) = 0) as ->;
      [|reflexivity].
    clear IH Hnd Hnd' Hin. induction ks as [|k' ks IH]; [reflexivity|].
    cbn [map fold_right]. destruct (String.eqb_spec k k') as [->|_].
    + exfalso. apply Hk. now left.
    + rewrite IH; [reflexivity|]. intros H. apply Hk. now right.
  - destruct Hin as [->|Hin]; [congruence|]. now rewrite IH.
Qed.

Lemma label_counts_sum results : forall ks,
  NoDup ks ->
  (forall p, In p results -> In (Result.emotion p) ks) ->
  fold_right Z.add 0 (map (fun k => label_count k results) ks) = len results.
Proof.
  induction results as [|r results IH]; intros ks Hnd Hin.
  - unfold label_count, labelled. cbn.
    induction ks as [|k ks IHk]; [reflexivity|].
    inversion Hnd; subst. cbn. now apply IHk.
  - assert (Hsplit :
      fold_right Z.add 0 (map (fun k => label_count k (r :: results)) ks) =
      fold_right Z.add 0
        (map (fun k => if String.eqb (Result.emotion r) k then 1 else 0) ks)
      + fold_right Z.add 0 (map (fun k => label_count k results) ks)).
    { clear. induction ks as [|k ks IHk]; [reflexivity|].
      cbn [map fold_right]. rewrite IHk.
      unfold label_count, labelled at 1. cbn [filter].
      destruct (String.eqb (Result.emotion r) k); unfold len;
        cbn [List.length]; fold (labelled k results); lia. }
    rewrite Hsplit, one_label_matches, IH; try assumption.
    + unfold len. cbn [List.length]. lia.
    + intros p Hp. apply Hin. now right.
    + apply Hin. now left.
Qed.

(** X22: [emotion_counts] gives, for each label in first-seen order, the
    number of predictions that carry it; the counts add up to the number of
    predictions; and the durations and the percentages are keyed by the same
    labels in the same order. *)
Theorem X22_counts_partition_the_predictions (results : list Result.t) :
  let stats := App.calculate_statistics results in
  Statistics.emotion_counts stats =
    map (fun e => (e, label_count e results)) (first_seen results) /\
  fold_right Z.add 0 (values (Statistics.emotion_counts stats)) = len results /\
  keys (Statistics.emotion_durations stats) = first_seen results /\
  keys (Statistics.emotion_percentages stats) = first_seen results.
Proof.
  cbv zeta. unfold App.calculate_statistics.
  destruct (counts_closed results) as (durations & total & Hc).
  destruct (accumulate_closed results) as (counts & Hd).
  rewrite Hc in Hd. injection Hd as _ Hdur _. rewrite Hc.
  cbn [Statistics.emotion_counts Statistics.emotion_durations
       Statistics.emotion_percentages].
  split; [reflexivity|]. split; [|split].
  - unfold values. rewrite map_map. cbn [snd].
    apply label_counts_sum.
    + apply fold_note_NoDup. constructor.
    + intros p Hp. apply fold_note_complete. right. now apply in_map.
  - rewrite Hdur. unfold keys, dict_map_values. rewrite !map_map. cbn [fst].
    apply map_id.
  - rewrite Hdur. unfold keys, dict_map_values. rewrite !map_map. cbn [fst].
    apply map_id.
Qed.
